(** * Stock price forecasting: the forecast orchestration layer

    A shallow embedding of [untitled-checkpoint.py]: the directional
    accuracy metric, the windowing and ensemble of [get_forecast], the
    training-set construction of [lstm_model] and the stochastic
    simulation adapter ([MCMC], [MH], [MCMC_model]).

    Conventions of the embedding:
    - a Python [float] is a real number ([R]); [NaN] is not a real, a
      cell that may hold it is an [option R];
    - a timestamp is a day, the proleptic Gregorian ordinal of Python's
      [date.toordinal] (day 1 is Monday 0001-01-01);
    - a computation that may raise returns a [result];
    - the pseudo-random generators are an explicit state, threaded through
      the sampler. *)

From Stdlib Require Import String.
From Stdlib Require Import ZArith List Bool Lia.
From Stdlib Require Import Sorted Permutation.
From Stdlib Require Import Reals Lra.
Import ListNotations.

(* ================================================================== *)
(** * Python values: exceptions, results, sequence indexing *)

Module Py.

(** The exceptions the interpreter raises in the embedded code, and
    [Raised] for an exception class of a collaborator, by its name. *)
Inductive exn : Type :=
| ZeroDivisionError
| IndexError
| ValueError
| Raised (class_name : string).

(** The error classes of the specification's taxonomy, by name. *)
Definition InsufficientDataError : exn := Raised "InsufficientDataError".
Definition AdapterError : exn := Raised "AdapterError".
Definition DegenerateInputError : exn := Raised "DegenerateInputError".

Inductive result (A : Type) : Type :=
| Ok (a : A)
| Err (e : exn).
Arguments Ok {A} a.
Arguments Err {A} e.

Definition bind {A B} (m : result A) (k : A -> result B) : result B :=
  match m with
  | Ok a => k a
  | Err e => Err e
  end.

Definition is_ok {A} (m : result A) : bool :=
  match m with Ok _ => true | Err _ => false end.

(** [l[k]] on a Python list or array: a negative index counts from the
    end, an index outside [-len, len) raises [IndexError]. *)
Definition getitem {A} (l : list A) (k : Z) : result A :=
  let len := Z.of_nat (length l) in
  let pos := if (k <? 0)%Z then (len + k)%Z else k in
  if ((0 <=? pos) && (pos <? len))%Z%bool
  then match nth_error l (Z.to_nat pos) with
       | Some a => Ok a
       | None => Err IndexError
       end
  else Err IndexError.

(** [range(a, b)] *)
Definition range (a b : Z) : list Z :=
  map (fun i => (a + Z.of_nat i)%Z) (seq 0 (Z.to_nat (b - a)%Z)).

(** A [for] loop over [items] whose body updates the loop state [st] and
    may raise: the first exception ends the loop. *)
Fixpoint for_each {S I} (body : S -> I -> result S) (st : S) (items : list I)
  : result S :=
  match items with
  | [] => Ok st
  | i :: items' =>
      match body st i with
      | Ok st' => for_each body st' items'
      | Err e => Err e
      end
  end.

(** [a / b] on two [int]s: true division, a float. *)
Definition true_div (a b : Z) : result R :=
  if (b =? 0)%Z then Err ZeroDivisionError else Ok (IZR a / IZR b)%R.

(** The comparisons of a float with zero. *)
Definition ge0 (x : R) : bool := if Rle_dec 0 x then true else false.
Definition lt0 (x : R) : bool := if Rlt_dec x 0 then true else false.

End Py.
Import Py.

Declare Scope py_scope.
Delimit Scope py_scope with py.
Notation "x <- m ;; k" := (bind m (fun x => k))
  (at level 61, m at next level, right associativity) : py_scope.
Notation "' pat <- m ;; k" := (bind m (fun x => match x with pat => k end))
  (at level 61, pat pattern, m at next level, right associativity) : py_scope.
Open Scope py_scope.

(* ================================================================== *)
(** * Dates: ordinals, weekdays, [relativedelta] *)

Module Calendar.
Local Open Scope Z_scope.

(** A timestamp is a day ordinal. *)
Abbreviation Timestamp := Z (only parsing).

(** [date.weekday()]: Monday is 0, Sunday is 6. *)
Definition weekday (d : Timestamp) : Z := (d + 6) mod 7.

Definition is_leap (year : Z) : bool :=
  (year mod 4 =? 0) && (negb (year mod 100 =? 0) || (year mod 400 =? 0)).

Definition days_before_year (year : Z) : Z :=
  let y := year - 1 in y * 365 + y / 4 - y / 100 + y / 400.

Definition DAYS_IN_MONTH (month : Z) : Z :=
  match month with
  | 1 => 31 | 2 => 28 | 3 => 31 | 4 => 30 | 5 => 31 | 6 => 30
  | 7 => 31 | 8 => 31 | 9 => 30 | 10 => 31 | 11 => 30 | 12 => 31
  | _ => 0
  end.

Definition DAYS_BEFORE_MONTH (month : Z) : Z :=
  match month with
  | 1 => 0 | 2 => 31 | 3 => 59 | 4 => 90 | 5 => 120 | 6 => 151
  | 7 => 181 | 8 => 212 | 9 => 243 | 10 => 273 | 11 => 304 | 12 => 334
  | _ => 0
  end.

Definition days_in_month (year month : Z) : Z :=
  if (month =? 2) && is_leap year then 29 else DAYS_IN_MONTH month.

Definition days_before_month (year month : Z) : Z :=
  DAYS_BEFORE_MONTH month + (if (2 <? month) && is_leap year then 1 else 0).

Definition ymd2ord (year month day : Z) : Timestamp :=
  days_before_year year + days_before_month year month + day.

Definition DI400Y := days_before_year 401.
Definition DI100Y := days_before_year 101.
Definition DI4Y := days_before_year 5.

Definition ord2ymd (n : Timestamp) : Z * Z * Z :=
  let n := n - 1 in
  let n400 := n / DI400Y in let n := n mod DI400Y in
  let year := n400 * 400 + 1 in
  let n100 := n / DI100Y in let n := n mod DI100Y in
  let n4 := n / DI4Y in let n := n mod DI4Y in
  let n1 := n / 365 in let n := n mod 365 in
  let year := year + n100 * 100 + n4 * 4 + n1 in
  if (n1 =? 4) || (n100 =? 4) then (year - 1, 12, 31)
  else
    let leapyear := (n1 =? 3) && (negb (n4 =? 24) || (n100 =? 3)) in
    let month := Z.shiftr (n + 50) 5 in
    let preceding :=
      DAYS_BEFORE_MONTH month + (if (2 <? month) && leapyear then 1 else 0) in
    if n <? preceding
    then
      let month := month - 1 in
      let preceding :=
        preceding - (DAYS_IN_MONTH month
                     + (if (month =? 2) && leapyear then 1 else 0)) in
      (year, month, n - preceding + 1)
    else (year, month, n - preceding + 1).

(** [d - relativedelta(days = n)] *)
Definition minus_days (d : Timestamp) (n : Z) : Timestamp := d - n.

(** [d + relativedelta(days = n)] *)
Definition plus_days (d : Timestamp) (n : Z) : Timestamp := d + n.

(** [d - relativedelta(years = n)]: the year moves back, the day of the
    month is clamped to the length of the month reached. *)
Definition minus_years (d : Timestamp) (n : Z) : Timestamp :=
  let '(year, month, day) := ord2ymd d in
  let year := year - n in
  ymd2ord year month (Z.min (days_in_month year month) day).

(** The business-day calendar of [freq="B"]: Monday to Friday. *)
Definition is_business_day (d : Timestamp) : bool := weekday d <? 5.

(** [pd.date_range(start, end, freq="B")]: the business days of the
    closed interval [start, end], in order. *)
Definition date_range_B (start stop : Timestamp) : list Timestamp :=
  filter is_business_day (range start (stop + 1)).

End Calendar.
Import Calendar.

Open Scope Z_scope.

(* ================================================================== *)
(** * Series and label slicing *)

Module Frames.

(** A cell of a frame: [None] is [NaN]. *)
Definition cell := option R.

(** A pandas Series with a [DatetimeIndex]: rows of label and value, in
    the order of the index. *)
Definition Series (A : Type) := list (Timestamp * A).

Definition index {A} (s : Series A) : list Timestamp := map fst s.
Definition values {A} (s : Series A) : list A := map snd s.

(** Length of the longest prefix on which [p] holds: on a sorted index
    this is the position [searchsorted] finds. *)
Fixpoint count_while {A} (p : A -> bool) (l : list A) : nat :=
  match l with
  | [] => 0%nat
  | x :: l' => if p x then S (count_while p l') else 0%nat
  end.

Definition searchsorted_left (idx : list Timestamp) (v : Timestamp) : nat :=
  count_while (fun t => t <? v) idx.

Definition searchsorted_right (idx : list Timestamp) (v : Timestamp) : nat :=
  count_while (fun t => t <=? v) idx.

(** Positional slice [l[a:b]]. *)
Definition islice {A} (a b : nat) (l : list A) : list A :=
  skipn a (firstn b l).

(** [s.loc[lo:hi]] on a monotonic index: both ends are inclusive. *)
Definition loc_slice {A} (lo hi : Timestamp) (s : Series A) : Series A :=
  islice (searchsorted_left (index s) lo) (searchsorted_right (index s) hi) s.

(** [s.loc[lo:]] *)
Definition loc_from {A} (lo : Timestamp) (s : Series A) : Series A :=
  skipn (searchsorted_left (index s) lo) s.

(** The restrictions of a series to an interval of days, as sets of rows. *)
Definition restrict_closed {A} (lo hi : Timestamp) (s : Series A) : Series A :=
  filter (fun r => (lo <=? fst r) && (fst r <=? hi)) s.

Definition restrict_left_open {A} (lo hi : Timestamp) (s : Series A)
  : Series A :=
  filter (fun r => (lo <? fst r) && (fst r <=? hi)) s.

Definition restrict_from {A} (lo : Timestamp) (s : Series A) : Series A :=
  filter (fun r => lo <=? fst r) s.

(** A price series: timestamps strictly increasing. *)
Definition increasing {A} (s : Series A) : Prop :=
  StronglySorted Z.lt (index s).

End Frames.
Import Frames.

(* ================================================================== *)
(** * Windowing (get_forecast, lines 319-335) *)

Record WindowSet : Type := {
  last_day : Timestamp;
  first_day : Timestamp;
  last_train_day : Timestamp;
  y_train : Series R;
  y_test : Series R;
  all_days : Series R;
  last_forecast_day : Timestamp;
  forecast_days : list Timestamp
}.

(** The windows, given the last day of the history. *)
Definition window_set (hist : Series R) (validation_days days_to_forecast : Z)
    (last_day : Timestamp) : WindowSet :=
  let first_day := minus_years last_day 2 in
  let last_train_day := minus_days last_day validation_days in
  let y_train := loc_slice first_day last_train_day hist in
  let y_test := loc_from last_train_day hist in
  let all_days := loc_from first_day hist in
  let last_forecast_day := plus_days last_day days_to_forecast in
  let forecast_days :=
    date_range_B (plus_days last_day 1) last_forecast_day in
  {| last_day := last_day;
     first_day := first_day;
     last_train_day := last_train_day;
     y_train := y_train;
     y_test := y_test;
     all_days := all_days;
     last_forecast_day := last_forecast_day;
     forecast_days := forecast_days |}.

(** [hist.index[-1]] raises [IndexError] on an empty history. *)
Definition windows (hist : Series R) (validation_days days_to_forecast : Z)
  : result WindowSet :=
  last_day <- getitem (index hist) (-1) ;;
  Ok (window_set hist validation_days days_to_forecast last_day).

(** Four trading days, Wednesday 2023-11-08 to Monday 2023-11-13. *)
Definition four_days : Series R :=
  [(738832, 100%R); (738833, 101%R); (738834, 102%R); (738837, 103%R)].

(** Five trading days, Tuesday 2023-11-07 to Monday 2023-11-13. *)
Definition five_days : Series R := (738831, 99%R) :: four_days.

(** Seventy-three trading days at a constant price, Thursday 2023-08-03 to
    Monday 2023-11-13 (weekends left out). *)
Definition quarter_of_days : Series R :=
  map (fun d => (d, 100%R)) (date_range_B 738735 738837).

(* ================================================================== *)
(** * Metrics: directional accuracy (lines 64-81) *)

Module Metrics.

(** One pass of the loop over [i]: the running count of correct calls. *)
Definition direction_step (actual_prices predicted_prices : list R)
    (correct_predictions : Z) (i : Z) : result Z :=
  a_i <- getitem actual_prices i ;;
  a_prev <- getitem actual_prices (i - 1) ;;
  let actual_direction := (a_i - a_prev)%R in
  p_i <- getitem predicted_prices i ;;
  a_prev' <- getitem actual_prices (i - 1) ;;
  let predicted_direction := (p_i - a_prev')%R in
  if (ge0 actual_direction && ge0 predicted_direction)
     || (lt0 actual_direction && lt0 predicted_direction)
  then Ok (correct_predictions + 1)
  else Ok correct_predictions.

Definition calculate_directional_accuracy
    (actual_prices predicted_prices : list R) : result R :=
  if negb (length actual_prices =? length predicted_prices)%nat
  then Err ValueError
  else
    let total_predictions := Z.of_nat (length actual_prices) - 1 in
    correct_predictions <-
      for_each (direction_step actual_prices predicted_prices) 0
               (range 1 (Z.of_nat (length actual_prices))) ;;
    true_div correct_predictions total_predictions.

(** The two sign buckets of a move: non-negative ([true], zero included)
    and negative ([false]). *)
Definition sign_bucket (move : R) : bool := ge0 move.

(** Whether, at index [i], the actual move and the predicted move (both
    measured from the previous actual price) fall in the same bucket. *)
Definition same_direction (actual predicted : list R) (i : nat) : bool :=
  Bool.eqb
    (sign_bucket (nth i actual 0 - nth (i - 1) actual 0)%R)
    (sign_bucket (nth i predicted 0 - nth (i - 1) actual 0)%R).

(** The number of indices [i] of [1, len) with matching buckets. *)
Definition matching_count (actual predicted : list R) : nat :=
  length (filter (same_direction actual predicted)
                 (seq 1 (length actual - 1))).

(** The named metrics an adapter reports. *)
Record Errors : Type := {
  Mean_squared_error : R;
  SMAPE : R;
  DA : R
}.

(** Metrics of the collaborating libraries: [mean_squared_error] of
    scikit-learn and [smape] of pmdarima. *)
Class MetricsLibrary : Type := {
  mean_squared_error : list R -> list R -> result R;
  smape : list R -> list R -> result R
}.

End Metrics.
Import Metrics.

(* ================================================================== *)
(** * Series arithmetic and the orchestrator (get_forecast) *)

Module Orchestrator.

(** Float arithmetic on cells: [NaN] propagates. *)
Definition cell_add (a b : cell) : cell :=
  match a, b with
  | Some x, Some y => Some (x + y)%R
  | _, _ => None
  end.

Definition cell_div (a : cell) (d : R) : cell :=
  match a with
  | Some x => Some (x / d)%R
  | None => None
  end.

(** The value at a label, [NaN] where the label is missing. *)
Definition lookup (t : Timestamp) (s : Series cell) : cell :=
  match find (fun r => fst r =? t) s with
  | Some r => snd r
  | None => None
  end.

Fixpoint insert_label (t : Timestamp) (l : list Timestamp) : list Timestamp :=
  match l with
  | [] => [t]
  | x :: l' =>
      if t <? x then t :: l
      else if t =? x then l
      else x :: insert_label t l'
  end.

(** The outer join of two indexes without duplicate labels: their sorted
    union. *)
Definition index_union (i j : list Timestamp) : list Timestamp :=
  fold_right insert_label [] (i ++ j).

(** [a + b] on two Series: rows are paired by position when the indexes
    are equal, and by label on the union of the indexes otherwise. *)
Definition series_add (a b : Series cell) : Series cell :=
  if list_eq_dec Z.eq_dec (index a) (index b)
  then map (fun rr => (fst (fst rr), cell_add (snd (fst rr)) (snd (snd rr))))
           (combine a b)
  else map (fun t => (t, cell_add (lookup t a) (lookup t b)))
           (index_union (index a) (index b)).

(** [a / d] on a Series and a number. *)
Definition series_div (a : Series cell) (d : R) : Series cell :=
  map (fun r => (fst r, cell_div (snd r) d)) a.

(** What an adapter reports as its errors: a dictionary of metrics, or
    [np.nan]. *)
Inductive errors_value : Type :=
| ErrorsDict (e : Errors)
| ErrorsNaN.

(** The contract the three adapters share: from the train series, the test
    series and the forecast days to a forecast frame (its [fc] column) and
    the validation errors. *)
Definition adapter : Type :=
  Series R -> Series R -> list Timestamp
  -> result (Series cell * errors_value).

Record Adapters : Type := {
  auto_arima_model : adapter;
  lstm_model : adapter;
  MCMC_model : adapter
}.

(** A line of the chart: [go.Scatter(x, y, name)]. *)
Record Scatter : Type := {
  x : list Timestamp;
  y : list cell;
  name : string
}.

(** What one run produces: the error table and the traces of the figure. *)
Record Forecast : Type := {
  error_df : list (string * errors_value);
  fig : list Scatter
}.

(** Lines 338-374: the three adapters run on the windows, then the error
    table and the figure are built. *)
Definition forecast_from (M : Adapters) (w : WindowSet) : result Forecast :=
  '(fc_arima, errors_arima) <-
    auto_arima_model M (y_train w) (y_test w) (forecast_days w) ;;
  '(fc_lstm, errors_lstm) <-
    lstm_model M (y_train w) (y_test w) (forecast_days w) ;;
  '(fc_mcmc, errors_mcmc) <-
    MCMC_model M (y_train w) (y_test w) (forecast_days w) ;;
  let error_df :=
    [("ARIMA"%string, errors_arima); ("LSTM"%string, errors_lstm);
     ("MCMC"%string, errors_mcmc)] in
  Ok {| error_df := error_df;
        fig :=
          [ {| x := index (all_days w);
               y := map Some (values (all_days w));
               name := "historical" |};
            {| x := index fc_lstm; y := values fc_lstm; name := "LSTM" |};
            {| x := index fc_mcmc; y := values fc_mcmc; name := "MCMC" |};
            {| x := index fc_arima; y := values fc_arima; name := "ARIMA" |};
            {| x := index fc_arima;
               y := values
                      (series_div
                         (series_add (series_add fc_arima fc_lstm) fc_mcmc)
                         3);
               name := "Final Forecast" |} ] |}.

Definition get_forecast (M : Adapters) (hist : Series R)
    (validation_days days_to_forecast : Z) : result Forecast :=
  w <- windows hist validation_days days_to_forecast ;;
  forecast_from M w.

(** The defaults of the signature. *)
Definition default_validation_days : Z := 90.
Definition default_days_to_forecast : Z := 30.

(** The trace of the figure with a given name. *)
Definition trace (n : string) (f : Forecast) : option Scatter :=
  find (fun s => String.eqb (name s) n) (fig f).

(** The points a trace draws. *)
Definition points (s : Scatter) : list (Timestamp * cell) :=
  combine (x s) (y s).

(** An adapter that forecasts the same price for every forecast day, and
    one that fails. *)
Definition constant_adapter (price : R) : adapter :=
  fun _ _ forecast_days =>
    Ok (map (fun d => (d, Some price)) forecast_days, ErrorsNaN).

Definition failing_adapter (e : exn) : adapter :=
  fun _ _ _ => Err e.

(** Three adapters that succeed, and the same with a failing second one. *)
Definition steady_models : Adapters :=
  {| auto_arima_model := constant_adapter 1;
     lstm_model := constant_adapter 2;
     MCMC_model := constant_adapter 6 |}.

Definition broken_lstm_models : Adapters :=
  {| auto_arima_model := constant_adapter 1;
     lstm_model := failing_adapter AdapterError;
     MCMC_model := constant_adapter 6 |}.

End Orchestrator.
Import Orchestrator.

(* ================================================================== *)
(** * The sequence-model adapter: scaling and training (lines 147-181) *)

Module SequenceModel.
Local Open Scope R_scope.

(** A fitted [MinMaxScaler(feature_range=(0,1))] on one feature. *)
Record MinMaxScaler : Type := {
  data_min : R;
  data_max : R
}.

(** [scaler.fit(X)]: the minimum and maximum of the data seen; no data is
    a [ValueError]. *)
Definition fit (X : list R) : result MinMaxScaler :=
  match X with
  | [] => Err ValueError
  | x0 :: X' =>
      Ok {| data_min := fold_left Rmin X' x0;
            data_max := fold_left Rmax X' x0 |}
  end.

(** A constant feature is scaled by 1. *)
Definition scale_ (s : MinMaxScaler) : R :=
  let data_range := data_max s - data_min s in
  (1 - 0) / (if Req_dec_T data_range 0 then 1 else data_range).

Definition min_ (s : MinMaxScaler) : R := 0 - data_min s * scale_ s.

(** [scaler.transform] on one value. *)
Definition transform (s : MinMaxScaler) (v : R) : R := v * scale_ s + min_ s.

(** The lookback of a training example. *)
Definition lookback : nat := 60.

(** The loop over [i] in [range(60, len(y_train_scaled))]: the window
    [y_train_scaled[i-60:i]] and the target [y_train_scaled[i]]. *)
Definition make_windows (y_train_scaled : list R) : list (list R) * list R :=
  let positions := seq lookback (length y_train_scaled - lookback) in
  (map (fun i => islice (i - lookback) i y_train_scaled) positions,
   map (fun i => nth i y_train_scaled 0) positions).

(** The training inputs: [train_X] and [train_y]. *)
Record TrainingSet : Type := {
  train_X : list (list R);
  train_y : list R
}.

(** The network library: building, compiling and fitting the model on the
    training inputs gives a trained model. *)
Class Keras : Type := {
  Model : Type;
  model_fit : list (list R) -> list R -> Model
}.

(** Lines 147-166: the training inputs of [lstm_model]. Reshaping a
    [train_X] without any window raises [IndexError] (it has no second
    axis). *)
Definition lstm_training_set (y_train y_test : Series R)
  : result TrainingSet :=
  let trainset := values y_train in
  let testset := values y_test in
  scaler <- fit (trainset ++ testset) ;;
  let y_train_scaled := map (transform scaler) trainset in
  let y_test_scaled := map (transform scaler) testset in
  let '(train_X, train_y) := make_windows y_train_scaled in
  match train_X with
  | [] => Err IndexError
  | _ => Ok {| train_X := train_X; train_y := train_y |}
  end.

(** Lines 147-181: the model [lstm_model] trains. *)
Definition lstm_trained_model `{Keras} (y_train y_test : Series R)
  : result Model :=
  ts <- lstm_training_set y_train y_test ;;
  Ok (model_fit (train_X ts) (train_y ts)).

(** The scaler fitted on the training prices alone. *)
Definition fit_on_train (y_train : Series R) : result MinMaxScaler :=
  fit (values y_train).

(** Sixty-one trading rows: sixty at price 1, then one at price 3. *)
Definition flat_then_up : Series R :=
  map (fun i => (Z.of_nat i, 1)) (seq 1 60) ++ [(61%Z, 3)].


End SequenceModel.
Import SequenceModel.

(* ================================================================== *)
(** * The stochastic-simulation adapter (lines 234-313) *)

Module Simulation.
Local Open Scope R_scope.

(** The pseudo-random generators of [numpy.random] and [random], with
    their state made explicit. [random_sample l k] draws [k] elements
    without replacement: with [k = len(l)], a permutation of [l]. *)
Class RandomSource : Type := {
  rng : Type;
  np_random_uniform : R -> R -> rng -> R * rng;
  np_random_rand : rng -> R * rng;
  random_sample : list R -> nat -> rng -> list R * rng;
  random_sample_all :
    forall l g, Permutation l (fst (random_sample l (length l) g))
}.

Definition mu : R := 0.25.
Definition sig : R := 0.5.
Definition N : nat := 1000.

Definition q (x : R) : R :=
  (1 / sqrt (2 * PI * sig ^ 2)) * exp (- ((x - mu) ^ 2) / (2 * sig ^ 2)).

Section Sampler.
Context `{RandomSource}.

(** The loop of [MCMC]: [k] more proposals from the point [r] of density
    [p], the points kept so far in [pts]. *)
Fixpoint MCMC_loop (k : nat) (r p : R) (pts : list R) (g : rng)
  : list R * rng :=
  match k with
  | O => (pts, g)
  | S k' =>
      let (step, g) := np_random_uniform (-1) 1 g in
      let rn := r + step in
      let pn := q rn in
      if Rge_dec pn p
      then MCMC_loop k' rn pn (pts ++ [rn]) g
      else
        let (u, g) := np_random_rand g in
        if Rlt_dec u (pn / p)
        then MCMC_loop k' rn pn (pts ++ [rn]) g
        else MCMC_loop k' r p (pts ++ [r]) g
  end.

(** [MCMC(n)]: [N] points of the chain, shuffled. The argument is not
    used. *)
Definition MCMC (n : nat) (g : rng) : list R * rng :=
  let (pts, g) := MCMC_loop N 0 (q 0) [] g in
  random_sample pts (length pts) g.

Definition maturnity : Z := 1.
Definition volatility : R := 0.25.
Definition risk_free : R := 0.1.

(** The factor one step multiplies a price by, for the noise [z]. *)
Definition growth (delta_t z : R) : R :=
  exp ((risk_free - 0.5 * volatility ^ 2) * delta_t
       + volatility * sqrt delta_t * z).

(** The state of the loop of [MH]: [stock_pred], [i] and the generator. *)
Definition MH_state : Type := (list R * Z * rng)%type.

(** The invariant of the loop: after [i] passes [stock_pred] holds
    [i + 1] prices. *)
Definition MH_invariant (st : MH_state) : Prop :=
  let '(stock_pred, i, _) := st in
  (0 <= i)%Z /\ Z.of_nat (length stock_pred) = (i + 1)%Z.

(** One pass of [while timestep < steps]. *)
Definition MH_body (delta_t : R) (st : MH_state) (timestep : Z)
  : result MH_state :=
  let '(stock_pred, i, g) := st in
  stock_price <- getitem stock_pred (- i) ;;
  let (pts, g) := MCMC N g in
  z <- getitem pts (timestep + 5) ;;
  let stock_price := stock_price * growth delta_t z in
  Ok (stock_pred ++ [stock_price], (i + 1)%Z, g).

(** Lines 265-284 of [MH]: the predicted prices. [timestep] starts at 1
    and grows by one each pass, so the loop runs over [range(1, steps)].
    Of [y_test] only the length is read here; [y_train[-1]] is read by
    position, the last price. *)
Definition MH_path {A} (y_train : list R) (y_test : list A) (g : rng)
  : result (list R * rng) :=
  let steps := Z.of_nat (length y_test) in
  delta_t <- true_div maturnity steps ;;
  last_price <- getitem y_train (-1) ;;
  '(stock_pred, _, g) <-
    for_each (MH_body delta_t) ([last_price], 0%Z, g) (range 1 steps) ;;
  Ok (stock_pred, g).

(** The finite values of an array, when none is [NaN]. *)
Fixpoint all_finite (a : list cell) : option (list R) :=
  match a with
  | [] => Some []
  | None :: _ => None
  | Some v :: a' =>
      match all_finite a' with
      | Some vs => Some (v :: vs)
      | None => None
      end
  end.

(** [MH(y_train, y_test, is_forecast)]. The metrics reject an array that
    holds [NaN] with a [ValueError]. *)
Definition MH `{MetricsLibrary} (y_train : list R) (y_test : list cell)
    (is_forecast : bool) (g : rng)
  : result (errors_value * list R * rng) :=
  '(stock_pred, g) <- MH_path y_train y_test g ;;
  if negb is_forecast
  then
    match all_finite y_test with
    | None => Err ValueError
    | Some actual =>
        mse <- mean_squared_error actual stock_pred ;;
        sm <- smape actual stock_pred ;;
        da <- calculate_directional_accuracy actual stock_pred ;;
        Ok (ErrorsDict {| Mean_squared_error := mse; SMAPE := sm; DA := da |},
            stock_pred, g)
    end
  else Ok (ErrorsNaN, stock_pred, g).

(** [fc_df.loc[new_day, 'fc'] = v] *)
Definition set_loc (fc_df : Series cell) (new_day : Timestamp) (v : R)
  : Series cell :=
  map (fun r => if (fst r =? new_day)%Z then (fst r, Some v) else r) fc_df.

(** The loop that copies [forecast] into the frame, day by day. *)
Definition fill_step (forecast : list R) (st : Series cell * Z)
    (new_day : Timestamp) : result (Series cell * Z) :=
  let '(fc_df, i) := st in
  v <- getitem forecast i ;;
  Ok (set_loc fc_df new_day v, (i + 1)%Z).

Definition MCMC_model `{MetricsLibrary} (y_train y_test : Series R)
    (forecast_days : list Timestamp) (g : rng)
  : result (Series cell * errors_value * rng) :=
  let fc_df : Series cell := map (fun d => (d, None)) forecast_days in
  '(val_errors, val_pred, g) <-
    MH (values y_train) (map Some (values y_test)) false g ;;
  let hist_data := values y_train ++ values y_test in
  '(errors, forecast, g) <- MH hist_data (values fc_df) true g ;;
  '(fc_df, _) <- for_each (fill_step forecast) (fc_df, 0%Z) (index fc_df) ;;
  Ok (fc_df, val_errors, g).

End Sampler.

(** A generator whose every draw is 0 and whose shuffle keeps the order:
    one of the sequences of draws the generators can produce. *)
Definition still_sample (l : list R) (k : nat) (g : unit) : list R * unit :=
  (firstn k l, g).

Definition still_sample_all (l : list R) (g : unit)
  : Permutation l (fst (still_sample l (length l) g)) :=
  eq_ind_r (fun l' => Permutation l l') (Permutation_refl l) (firstn_all l).

Definition still_source : RandomSource := {|
  rng := unit;
  np_random_uniform := fun _ _ g => (0, g);
  np_random_rand := fun g => (0, g);
  random_sample := still_sample;
  random_sample_all := still_sample_all
|}.

End Simulation.
Import Simulation.

(* ================================================================== *)
(** * Further definitions: reference predictors for the metric *)

Module Predictors.

(** Whether the actual price did not fall from index [i - 1] to [i]. *)
Definition not_falling (actual : list R) (i : nat) : bool :=
  ge0 (nth i actual 0 - nth (i - 1) actual 0)%R.

(** The number of indices of [1, len) at which the price did not fall. *)
Definition not_falling_count (actual : list R) : nat :=
  length (filter (not_falling actual) (seq 1 (length actual - 1))).

(** A prediction that repeats the previous actual price at every index
    from 1 on. *)
Definition repeats_previous (actual predicted : list R) : Prop :=
  forall i, (1 <= i < length actual)%nat ->
            nth i predicted 0%R = nth (i - 1) actual 0%R.

End Predictors.
Import Predictors.

(* ================================================================== *)
(** * Further definitions: the calendar of forecast days *)

Module BusinessDays.


End BusinessDays.
Import BusinessDays.

(* ================================================================== *)
(** * Symbol search (lines 387-460) and the page script (lines 464-487) *)

Module App.

(** [s.split(sep)] for a non-empty separator: [skip] characters of a
    separator just found are still to be passed over, [cur] is the part
    being read. *)
Fixpoint split_go (sep s : string) (skip : nat) (cur : string) : list string :=
  match s with
  | EmptyString => [cur]
  | String c s' =>
      match skip with
      | S k => split_go sep s' k cur
      | O =>
          if String.prefix sep s
          then cur :: split_go sep s' (String.length sep - 1) EmptyString
          else split_go sep s' 0 (cur ++ String c EmptyString)
      end
  end.

Definition split (sep s : string) : list string := split_go sep s 0 EmptyString.

(** An entry of the suggestion list, as the parser hands it over: the
    stripped texts of the symbol, company name and exchange elements. *)
Record ListItem : Type := {
  quoteSymbol : string;
  quoteCompanyName : string;
  quoteSpan : string
}.

(** What [search_symbols] returns: a message, or a table of symbol,
    company and exchange. *)
Inductive Suggestions : Type :=
| Message (text : string)
| Table (rows : list (string * string * string)).

Definition no_stocks : string := "No relevant stocks found.".

(** One pass of the loop over the entries: the three lists so far. *)
Definition item_step
    (st : list string * list string * list string) (item : ListItem)
  : result (list string * list string * list string) :=
  let '(symbol_list, company_name_list, exchange_list) := st in
  let symbol := quoteSymbol item in
  if String.eqb symbol "PRIVATE" then Ok st
  else
    let symbol_list := symbol_list ++ [symbol] in
    let company_name := quoteCompanyName item in
    let company_name_list := company_name_list ++ [company_name] in
    exchange_name <- getitem (split " - " (quoteSpan item)) 1 ;;
    Ok (symbol_list, company_name_list, exchange_list ++ [exchange_name]).

(** [pd.DataFrame] of three columns: columns of different lengths are a
    [ValueError]. *)
Definition data_frame (symbols companies exchanges : list string)
  : result (list (string * string * string)) :=
  if ((length symbols =? length companies)
      && (length companies =? length exchanges))%nat
  then Ok (combine (combine symbols companies) exchanges)
  else Err ValueError.

(** [search_symbols], from the suggestion list the browser found: [None]
    when the wait for the symbols heading timed out. *)
Definition search_symbols (page : option (list ListItem))
  : result Suggestions :=
  match page with
  | None => Ok (Message no_stocks)
  | Some items =>
      '(symbol_list, company_name_list, exchange_list) <-
        for_each item_step ([], [], []) items ;;
      possible_symbols <-
        data_frame symbol_list company_name_list exchange_list ;;
      if (length possible_symbols =? 0)%nat
      then Ok (Message no_stocks)
      else Ok (Table possible_symbols)
  end.

(** The entries that are publicly listed, and the row of an entry. *)
Definition listed (item : ListItem) : bool :=
  negb (String.eqb (quoteSymbol item) "PRIVATE").

Definition names_exchange (item : ListItem) : bool :=
  (2 <=? length (split " - " (quoteSpan item)))%nat.

Definition row_of (item : ListItem) : string * string * string :=
  (quoteSymbol item, quoteCompanyName item,
   nth 1 (split " - " (quoteSpan item)) EmptyString).

(** What the page shows at the end of a run. *)
Inductive Shown : Type :=
| NothingYet
| ErrorBox (message : string)
| Chart (f : Forecast)
| Written (s : Suggestions).

Definition no_data : string := "No data found. Symbol is not listed.".

(** The collaborators of the script: the price history of a ticker, the
    suggestion list of a search, and the three models. *)
Record Services : Type := {
  history : string -> Series R;
  suggestion_list : string -> option (list ListItem);
  models : Adapters
}.

(** The script: the tab chosen in the sidebar and the text typed in its
    input. An exception nothing catches ends the run. *)
Definition script (S : Services) (selected_tab text : string)
  : result Shown :=
  if String.eqb selected_tab "Yes! Let's Forecast" then
    if negb (String.eqb text EmptyString) then
      let hist := history S text in
      if (length hist =? 0)%nat then Ok (ErrorBox no_data)
      else
        f <- get_forecast (models S) hist
               default_validation_days default_days_to_forecast ;;
        Ok (Chart f)
    else Ok NothingYet
  else if String.eqb selected_tab "No. Find Symbol" then
    if negb (String.eqb text EmptyString) then
      suggestions <- search_symbols (suggestion_list S text) ;;
      Ok (Written suggestions)
    else Ok NothingYet
  else Ok NothingYet.

(** Three entries of a suggestion list: two listed, one private. *)
Definition apple : ListItem :=
  {| quoteSymbol := "AAPL"; quoteCompanyName := "Apple Inc.";
     quoteSpan := "Equity - NMS" |}.

Definition private_firm : ListItem :=
  {| quoteSymbol := "PRIVATE"; quoteCompanyName := "Apple Leisure Group";
     quoteSpan := "Private Company" |}.

Definition apple_frankfurt : ListItem :=
  {| quoteSymbol := "APC.F"; quoteCompanyName := "Apple Inc.";
     quoteSpan := "Equity - FRA" |}.

(** Services of a run without network: no ticker has a history, no search
    finds the symbols heading. *)
Definition offline : Services :=
  {| history := fun _ => [];
     suggestion_list := fun _ => None;
     models := steady_models |}.

End App.
Import App.

(* ================================================================== *)
(** * Further definitions: the noise a pass of [MH] reads *)

Module Noise.
Section Passes.
Context `{RandomSource}.

(** [f] applied [n] times. *)
Fixpoint iterate {A} (f : A -> A) (n : nat) (a : A) : A :=
  match n with
  | O => a
  | S k => f (iterate f k a)
  end.

(** One call of [MCMC(N)] from the state [g]: the array it returns and
    the state it leaves. *)
Definition noise_array (g : rng) : list R := fst (MCMC N g).
Definition next_generator (g : rng) : rng := snd (MCMC N g).

(** The state of the generators after [passes] passes of the loop of
    [MH], each of which calls [MCMC] once. *)
Definition generator_after (passes : nat) (g : rng) : rng :=
  iterate next_generator passes g.

(** The noise value the pass for [timestep] reads: the entry
    [timestep + 5] of the array drawn in that pass. *)
Definition noise_of_pass (timestep : nat) (g : rng) : result R :=
  getitem (noise_array (generator_after (timestep - 1) g))
          (Z.of_nat timestep + 5).

(** The price the pass for [timestep] multiplies: the last training price
    in the first pass, the price of the first step afterwards. *)
Definition base_of_pass (timestep : nat) (path : list R) : R :=
  nth (if (timestep =? 1)%nat then 0 else 1)%nat path 0%R.

(** The step of the simulation: one over the number of points. *)
Definition step_length {A} (y_test : list A) : R :=
  (IZR maturnity / IZR (Z.of_nat (length y_test)))%R.

End Passes.
(** A metrics library whose two metrics always answer 0. *)
Definition zero_metrics : MetricsLibrary :=
  {| mean_squared_error := fun _ _ => Ok 0%R;
     smape := fun _ _ => Ok 0%R |}.

(** That the two library metrics answer on sequences of the same length
    that are not empty. *)
Definition metrics_answer `{MetricsLibrary} : Prop :=
  forall actual predicted : list R,
    length actual = length predicted -> actual <> [] ->
    (exists v, mean_squared_error actual predicted = Ok v)
    /\ (exists v, smape actual predicted = Ok v).

End Noise.
Import Noise.
(* ================================================================== *)
(** * Calendar checks *)

Example ord2ymd_leap_day : ord2ymd 738945 = (2024, 2, 29)%Z.
Proof. reflexivity. Qed.

Example ymd2ord_leap_day : ymd2ord 2024 2 29 = 738945%Z.
Proof. reflexivity. Qed.

Example ord2ymd_year_end : ord2ymd 730485 = (2000, 12, 31)%Z.
Proof. reflexivity. Qed.

Example weekday_monday : weekday 738837 = 0%Z.
Proof. reflexivity. Qed.

Example minus_years_clamps : ord2ymd (minus_years 738945 2) = (2022, 2, 28)%Z.
Proof. reflexivity. Qed.

(* ================================================================== *)
(** * Label slicing is restriction on an increasing index *)

Section Slicing.
Context {A : Type}.
Implicit Types (s : Series A) (lo hi : Timestamp).

Lemma filter_none (p : Timestamp * A -> bool) s :
  Forall (fun r => p r = false) s -> filter p s = [].
Proof.
  induction 1 as [|r s Hr _ IH]; simpl; [reflexivity|].
  now rewrite Hr.
Qed.

Lemma filter_all (p : Timestamp * A -> bool) s :
  Forall (fun r => p r = true) s -> filter p s = s.
Proof.
  induction 1 as [|r s Hr _ IH]; simpl; [reflexivity|].
  now rewrite Hr, IH.
Qed.

Lemma increasing_cons r s :
  increasing (r :: s) -> increasing s /\ Forall (fun r' => fst r < fst r') s.
Proof.
  unfold increasing; simpl; intros H.
  apply StronglySorted_inv in H as [Hs Hall]; split; [exact Hs|].
  rewrite Forall_forall in Hall |- *; intros r' Hin.
  apply Hall; unfold index; now apply in_map.
Qed.

Lemma loc_from_restrict lo s :
  increasing s -> loc_from lo s = restrict_from lo s.
Proof.
  unfold loc_from, restrict_from, searchsorted_left.
  induction s as [|r s IH]; intros Hinc; [reflexivity|].
  apply increasing_cons in Hinc as [Hs Hall].
  cbn [index map count_while filter].
  destruct (Z.ltb_spec (fst r) lo) as [Hlt|Hge];
    destruct (Z.leb_spec lo (fst r)) as [Hle|Hgt]; try lia.
  - cbn [skipn]; now apply IH.
  - cbn [skipn]; f_equal; symmetry; apply filter_all.
    eapply Forall_impl; [|exact Hall]; simpl; intros r' Hr'.
    apply Z.leb_le; lia.
Qed.

Lemma loc_slice_restrict lo hi s :
  increasing s -> loc_slice lo hi s = restrict_closed lo hi s.
Proof.
  unfold loc_slice, restrict_closed, islice, searchsorted_left,
    searchsorted_right.
  induction s as [|r s IH]; intros Hinc; [reflexivity|].
  apply increasing_cons in Hinc as [Hs Hall].
  specialize (IH Hs).
  cbn [index map count_while filter].
  destruct (Z.leb_spec (fst r) hi) as [Hhi|Hhi].
  - destruct (Z.ltb_spec (fst r) lo) as [Hlt|Hge];
      destruct (Z.leb_spec lo (fst r)) as [Hle|Hgt]; try lia;
      cbn [firstn skipn andb]; [exact IH|].
    f_equal.
    destruct s as [|r' s']; [reflexivity|].
    apply Forall_inv in Hall as Hr'.
    cbn [index map count_while] in IH |- *.
    destruct (Z.ltb_spec (fst r') lo) as [Hlt|_]; [lia|].
    exact IH.
  - rewrite andb_false_r.
    cbn [firstn]; rewrite skipn_nil.
    symmetry; apply filter_none.
    eapply Forall_impl; [|exact Hall]; simpl; intros r' Hr'.
    apply andb_false_iff; right; apply Z.leb_gt; lia.
Qed.

End Slicing.

(* ================================================================== *)
(** * Facts on ranges and business days *)

Lemma getitem_last {A} (l : list A) (d : A) :
  l <> [] -> getitem l (-1) = Ok (last l d).
Proof.
  intros Hne.
  destruct (exists_last Hne) as (l' & a & ->).
  unfold getitem; rewrite last_last, length_app; cbn [length].
  replace (-1 <? 0) with true by reflexivity.
  replace (Z.of_nat (length l' + 1) + -1) with (Z.of_nat (length l')) by lia.
  destruct (Z.leb_spec 0 (Z.of_nat (length l'))); [|lia].
  destruct (Z.ltb_spec (Z.of_nat (length l')) (Z.of_nat (length l' + 1)));
    [|lia].
  cbn [andb]; rewrite Nat2Z.id, nth_error_app2, Nat.sub_diag by lia.
  reflexivity.
Qed.

Lemma getitem_nil {A} (k : Z) : getitem (@nil A) k = Err IndexError.
Proof.
  unfold getitem; cbn [length Z.of_nat].
  destruct (k <? 0) eqn:Hk.
  - destruct (Z.leb_spec 0 (0 + k)); [apply Z.ltb_lt in Hk; lia|reflexivity].
  - destruct (Z.leb_spec 0 k); [|reflexivity].
    destruct (Z.ltb_spec k 0); [lia|reflexivity].
Qed.

Lemma in_range (a b d : Z) : In d (range a b) <-> a <= d < b.
Proof.
  unfold range; rewrite in_map_iff; split.
  - intros (i & <- & Hi); apply in_seq in Hi; lia.
  - intros Hd; exists (Z.to_nat (d - a)); split; [lia|].
    apply in_seq; lia.
Qed.

Lemma length_range (a b : Z) : length (range a b) = Z.to_nat (b - a).
Proof. unfold range; now rewrite length_map, length_seq. Qed.











(* ================================================================== *)
(** * Windowing *)

Lemma windows_nonempty (hist : Series R) (v f : Z) :
  hist <> [] -> exists w, windows hist v f = Ok w.
Proof.
  intros Hne; unfold windows.
  rewrite (getitem_last (index hist) 0).
  - cbn [bind]; eexists; reflexivity.
  - unfold index; destruct hist; [contradiction|discriminate].
Qed.

Lemma windows_empty (v f : Z) : windows [] v f = Err IndexError.
Proof. reflexivity. Qed.

Lemma windows_fields (hist : Series R) (v f : Z) (w : WindowSet) :
  windows hist v f = Ok w ->
  last_day w = last (index hist) 0
  /\ first_day w = minus_years (last_day w) 2
  /\ last_train_day w = last_day w - v
  /\ y_train w = loc_slice (first_day w) (last_train_day w) hist
  /\ y_test w = loc_from (last_train_day w) hist
  /\ all_days w = loc_from (first_day w) hist
  /\ forecast_days w = date_range_B (last_day w + 1) (last_day w + f).
Proof.
  unfold windows; intros Hw.
  destruct hist as [|r hist]; [discriminate|].
  rewrite (getitem_last (index (r :: hist)) 0) in Hw by discriminate.
  cbn [bind] in Hw; injection Hw as <-.
  repeat split; reflexivity.
Qed.

(** On an increasing series the train series is the restriction to
    [first_day, last_train_day] and the test series the restriction to
    [last_train_day, last_day]: closed at both ends. *)
Lemma windows_restrictions (hist : Series R) (v f : Z) (w : WindowSet) :
  increasing hist ->
  windows hist v f = Ok w ->
  y_train w = restrict_closed (first_day w) (last_train_day w) hist
  /\ y_test w = restrict_from (last_train_day w) hist
  /\ all_days w = restrict_from (first_day w) hist.
Proof.
  intros Hinc Hw.
  apply windows_fields in Hw as (_ & _ & _ & -> & -> & -> & _).
  rewrite loc_slice_restrict, !loc_from_restrict by assumption.
  repeat split; reflexivity.
Qed.

(** A row dated [last_train_day] is in the train series and in the test
    series. *)
Lemma boundary_row_in_both (hist : Series R) (v f : Z) (w : WindowSet)
    (price : R) :
  increasing hist ->
  windows hist v f = Ok w ->
  first_day w <= last_train_day w ->
  In (last_train_day w, price) hist ->
  In (last_train_day w, price) (y_train w)
  /\ In (last_train_day w, price) (y_test w).
Proof.
  intros Hinc Hw Hfirst Hin.
  destruct (windows_restrictions hist v f w Hinc Hw) as (-> & -> & _).
  unfold restrict_closed, restrict_from; rewrite !filter_In; cbn [fst].
  repeat split; try assumption.
  - apply andb_true_iff; split; apply Z.leb_le; lia.
  - apply Z.leb_le; lia.
Qed.

(** C1, at a failing input: on four trading days ending Monday 2023-11-13
    with three validation days the boundary day, Friday 2023-11-10
    (ordinal 738834), is the last day of the train series and the first
    day of the test series: the two windows overlap, and the test series
    is not the restriction to (last_train_day, last_day]. *)
Theorem windows_overlap_at_boundary :
  exists w,
    windows four_days 3 30 = Ok w
    /\ last_train_day w = 738834
    /\ index (y_train w) = [738832; 738833; 738834]
    /\ index (y_test w) = [738834; 738837]
    /\ In 738834 (index (y_train w)) /\ In 738834 (index (y_test w))
    /\ y_test w
       <> restrict_left_open (last_train_day w) (last_day w) four_days.
Proof.
  eexists; split; [reflexivity|].
  cbn; repeat split; auto.
  discriminate.
Qed.

(** The same overlap with the default of 90 validation days: the boundary
    day, Tuesday 2023-08-15 (ordinal 738747), ends the train series and
    starts the test series. *)
Example windows_overlap_with_defaults :
  exists w,
    windows quarter_of_days 90 30 = Ok w
    /\ last_train_day w = 738747
    /\ last (index (y_train w)) 0 = 738747
    /\ hd_error (index (y_test w)) = Some 738747.
Proof.
  eexists; split; [reflexivity|].
  repeat split; vm_compute; reflexivity.
Qed.

(* ================================================================== *)
(** * The forecast days *)




(* ================================================================== *)
(** * The orchestrator: failures and the ensemble *)

Section Run.
Variable M : Adapters.
Variable w : WindowSet.

(** What each adapter answers on the windows. *)
Let arima := auto_arima_model M (y_train w) (y_test w) (forecast_days w).
Let lstm := lstm_model M (y_train w) (y_test w) (forecast_days w).
Let mcmc := Orchestrator.MCMC_model M (y_train w) (y_test w) (forecast_days w).

Lemma forecast_from_arima_fails (e : exn) :
  arima = Err e -> forecast_from M w = Err e.
Proof. unfold forecast_from; fold arima; now intros ->. Qed.

Lemma forecast_from_lstm_fails (r : Series cell * errors_value) (e : exn) :
  arima = Ok r -> lstm = Err e -> forecast_from M w = Err e.
Proof.
  unfold forecast_from; fold arima lstm; intros -> ->.
  now destruct r.
Qed.

Lemma forecast_from_mcmc_fails (r r' : Series cell * errors_value) (e : exn) :
  arima = Ok r -> lstm = Ok r' -> mcmc = Err e -> forecast_from M w = Err e.
Proof.
  unfold forecast_from; fold arima lstm mcmc; intros -> -> ->.
  now destruct r, r'.
Qed.

Lemma forecast_from_all_ok (fa fl fm : Series cell) (ea el em : errors_value) :
  arima = Ok (fa, ea) -> lstm = Ok (fl, el) -> mcmc = Ok (fm, em) ->
  forecast_from M w =
  Ok {| error_df :=
          [("ARIMA"%string, ea); ("LSTM"%string, el); ("MCMC"%string, em)];
        fig :=
          [ {| x := index (all_days w);
               y := map Some (values (all_days w));
               name := "historical" |};
            {| x := index fl; y := values fl; name := "LSTM" |};
            {| x := index fm; y := values fm; name := "MCMC" |};
            {| x := index fa; y := values fa; name := "ARIMA" |};
            {| x := index fa;
               y := values
                      (series_div (series_add (series_add fa fl) fm) 3);
               name := "Final Forecast" |} ] |}.
Proof.
  unfold forecast_from; fold arima lstm mcmc; now intros -> -> ->.
Qed.

End Run.

(** Series with the same index add up row by row. *)
Lemma series_add_same_index (a b : Series cell) :
  index a = index b ->
  series_add a b =
  map (fun rr => (fst (fst rr), cell_add (snd (fst rr)) (snd (snd rr))))
      (combine a b).
Proof.
  intros Hidx; unfold series_add.
  destruct (list_eq_dec Z.eq_dec (index a) (index b)); [reflexivity|].
  contradiction.
Qed.

Lemma index_series_add_same (a b : Series cell) :
  index a = index b -> index (series_add a b) = index a.
Proof.
  intros Hidx; rewrite series_add_same_index by exact Hidx.
  revert b Hidx; induction a as [|ra a IH]; intros [|rb b] Hidx;
    try discriminate; [reflexivity|].
  injection Hidx as _ Hidx; cbn; f_equal; now apply IH.
Qed.

Lemma nth_error_series_add (a b : Series cell) (i : nat) (t : Z)
    (va vb : cell) :
  index a = index b ->
  nth_error a i = Some (t, va) -> nth_error b i = Some (t, vb) ->
  nth_error (series_add a b) i = Some (t, cell_add va vb).
Proof.
  intros Hidx; rewrite series_add_same_index by exact Hidx; clear Hidx.
  revert b i; induction a as [|ra a IH]; intros [|rb b] [|i]; cbn;
    try discriminate.
  - now intros [= ->] [= ->].
  - apply IH.
Qed.

Lemma nth_error_series_div (a : Series cell) (d : R) (i : nat) (t : Z)
    (va : cell) :
  nth_error a i = Some (t, va) ->
  nth_error (series_div a d) i = Some (t, cell_div va d).
Proof.
  intros Ha; unfold series_div; rewrite nth_error_map, Ha; reflexivity.
Qed.

Lemma index_series_div (a : Series cell) (d : R) :
  index (series_div a d) = index a.
Proof.
  unfold series_div, index; rewrite map_map; reflexivity.
Qed.

Lemma nth_error_combine_index_values (s : Series cell) (i : nat) :
  nth_error (combine (index s) (values s)) i = nth_error s i.
Proof.
  revert i; induction s as [|[t v] s IH]; intros [|i]; cbn; auto.
Qed.

(** C3: when the three adapters succeed with forecast frames on the same
    timestamps, the "Final Forecast" trace has one point per forecast
    timestamp, and its value there is the arithmetic mean of the ARIMA,
    LSTM and MCMC prices at that timestamp. *)
Theorem ensemble_is_mean_of_three
    (M : Adapters) (hist : Series R) (v f : Z) (w : WindowSet)
    (fa fl fm : Series cell) (ea el em : errors_value) :
  windows hist v f = Ok w ->
  auto_arima_model M (y_train w) (y_test w) (forecast_days w) = Ok (fa, ea) ->
  lstm_model M (y_train w) (y_test w) (forecast_days w) = Ok (fl, el) ->
  Orchestrator.MCMC_model M (y_train w) (y_test w) (forecast_days w)
    = Ok (fm, em) ->
  index fl = index fa -> index fm = index fa ->
  exists out final,
    get_forecast M hist v f = Ok out
    /\ trace "Final Forecast" out = Some final
    /\ x final = index fa
    /\ map fst (points final) = index fa
    /\ forall i t pa pl pm,
         nth_error fa i = Some (t, Some pa) ->
         nth_error fl i = Some (t, Some pl) ->
         nth_error fm i = Some (t, Some pm) ->
         nth_error (points final) i = Some (t, Some ((pa + pl + pm) / 3)%R).
Proof.
  intros Hw Ha Hl Hm Hil Him.
  unfold get_forecast; rewrite Hw; cbn [bind].
  rewrite (forecast_from_all_ok M w fa fl fm ea el em Ha Hl Hm).
  eexists; eexists; split; [reflexivity|].
  split; [reflexivity|].
  assert (Hidx : index (series_div (series_add (series_add fa fl) fm) 3)
                 = index fa).
  { rewrite index_series_div, index_series_add_same;
      rewrite index_series_add_same; congruence. }
  unfold points; cbn [x y].
  split; [reflexivity|].
  assert (Hsum : forall i t pa pl pm,
             nth_error fa i = Some (t, Some pa) ->
             nth_error fl i = Some (t, Some pl) ->
             nth_error fm i = Some (t, Some pm) ->
             nth_error (series_div (series_add (series_add fa fl) fm) 3) i
             = Some (t, Some ((pa + pl + pm) / 3)%R)).
  { intros i t pa pl pm Hia Hil' Him'.
    apply (nth_error_series_div _ 3 i t (Some (pa + pl + pm)%R)).
    apply (nth_error_series_add _ _ i t (Some (pa + pl)%R) (Some pm)).
    - rewrite index_series_add_same; congruence.
    - apply (nth_error_series_add _ _ i t (Some pa) (Some pl));
        [congruence|assumption|assumption].
    - exact Him'. }
  revert Hidx Hsum.
  generalize (series_div (series_add (series_add fa fl) fm) 3).
  intros s <- Hsum; split.
  - clear; induction s as [|[t c] s IH]; cbn; [reflexivity|].
    now f_equal.
  - intros i t pa pl pm Hia Hil' Him'.
    rewrite nth_error_combine_index_values; now apply Hsum.
Qed.

Lemma ensemble_is_mean_of_three_witness :
  exists out final,
    get_forecast steady_models four_days 3 30 = Ok out
    /\ trace "Final Forecast" out = Some final
    /\ x final
       = index (map (fun d => (d, Some 1%R))
                    (forecast_days (window_set four_days 3 30 738837)))
    /\ map fst (points final)
       = index (map (fun d => (d, Some 1%R))
                    (forecast_days (window_set four_days 3 30 738837)))
    /\ forall i t pa pl pm,
         nth_error (map (fun d => (d, Some 1%R))
                        (forecast_days (window_set four_days 3 30 738837))) i
           = Some (t, Some pa) ->
         nth_error (map (fun d => (d, Some 2%R))
                        (forecast_days (window_set four_days 3 30 738837))) i
           = Some (t, Some pl) ->
         nth_error (map (fun d => (d, Some 6%R))
                        (forecast_days (window_set four_days 3 30 738837))) i
           = Some (t, Some pm) ->
         nth_error (points final) i = Some (t, Some ((pa + pl + pm) / 3)%R).
Proof.
  apply (ensemble_is_mean_of_three steady_models four_days 3 30
           (window_set four_days 3 30 738837)
           _ _ _ ErrorsNaN ErrorsNaN ErrorsNaN);
    reflexivity.
Defined.

(** C4, as stated, fails: with a sequence model that raises [AdapterError]
    and two adapters that succeed, no forecast is returned. *)
Lemma one_failing_adapter_aborts :
  lstm_model broken_lstm_models
    (y_train (window_set four_days 3 30 738837))
    (y_test (window_set four_days 3 30 738837))
    (forecast_days (window_set four_days 3 30 738837)) = Err AdapterError
  /\ is_ok (auto_arima_model broken_lstm_models
              (y_train (window_set four_days 3 30 738837))
              (y_test (window_set four_days 3 30 738837))
              (forecast_days (window_set four_days 3 30 738837))) = true
  /\ is_ok (Orchestrator.MCMC_model broken_lstm_models
              (y_train (window_set four_days 3 30 738837))
              (y_test (window_set four_days 3 30 738837))
              (forecast_days (window_set four_days 3 30 738837))) = true
  /\ get_forecast broken_lstm_models four_days 3 30 = Err AdapterError
  /\ is_ok (get_forecast broken_lstm_models four_days 3 30) = false.
Proof. repeat split; reflexivity. Qed.

(** C4, amended: when one of the three adapters fails, the others
    succeeding or not run, [get_forecast] fails with the error of that
    adapter (the first to fail in the order ARIMA, LSTM, MCMC): no error
    table and no figure are produced. *)
Theorem adapter_failure_aborts
    (M : Adapters) (hist : Series R) (v f : Z) (w : WindowSet) (e : exn) :
  windows hist v f = Ok w ->
  auto_arima_model M (y_train w) (y_test w) (forecast_days w) = Err e
  \/ (is_ok (auto_arima_model M (y_train w) (y_test w) (forecast_days w))
      = true
      /\ lstm_model M (y_train w) (y_test w) (forecast_days w) = Err e)
  \/ (is_ok (auto_arima_model M (y_train w) (y_test w) (forecast_days w))
      = true
      /\ is_ok (lstm_model M (y_train w) (y_test w) (forecast_days w)) = true
      /\ Orchestrator.MCMC_model M (y_train w) (y_test w) (forecast_days w)
         = Err e) ->
  get_forecast M hist v f = Err e.
Proof.
  intros Hw Hfail; unfold get_forecast; rewrite Hw; cbn [bind].
  destruct Hfail as [Ha | [[Ha Hl] | (Ha & Hl & Hm)]].
  - now apply forecast_from_arima_fails.
  - destruct (auto_arima_model M _ _ _) as [r|] eqn:Ea; [|discriminate].
    now apply (forecast_from_lstm_fails M w r e).
  - destruct (auto_arima_model M _ _ _) as [r|] eqn:Ea; [|discriminate].
    destruct (lstm_model M _ _ _) as [r'|] eqn:El; [|discriminate].
    now apply (forecast_from_mcmc_fails M w r r' e).
Qed.

Lemma adapter_failure_aborts_witness :
  get_forecast broken_lstm_models four_days 3 30 = Err AdapterError.
Proof.
  apply (adapter_failure_aborts broken_lstm_models four_days 3 30
           (window_set four_days 3 30 738837) AdapterError).
  - reflexivity.
  - right; left; split; reflexivity.
Defined.

(** C5, as stated, fails: on five trading days with 90 validation days the
    windowing returns an empty train series and a five-day test series
    instead of failing, and the adapters are run on them. *)
Lemma short_history_reaches_adapters :
  windows five_days 90 30 = Ok (window_set five_days 90 30 738837)
  /\ y_train (window_set five_days 90 30 738837) = []
  /\ y_test (window_set five_days 90 30 738837) = five_days
  /\ windows five_days 90 30 <> Err InsufficientDataError
  /\ get_forecast steady_models five_days 90 30
     = forecast_from steady_models (window_set five_days 90 30 738837)
  /\ is_ok (get_forecast steady_models five_days 90 30) = true.
Proof.
  repeat split; try reflexivity.
  discriminate.
Qed.

(** C5, amended: the windowing checks no length. On every non-empty
    history it returns windows, however short or empty the train and test
    series are, and [get_forecast] runs the adapters on them; a failure of
    [get_forecast] is then the failure of an adapter. *)
Theorem windowing_checks_no_length
    (M : Adapters) (hist : Series R) (v f : Z) :
  hist <> [] ->
  exists w,
    windows hist v f = Ok w
    /\ get_forecast M hist v f = forecast_from M w
    /\ forall e,
         get_forecast M hist v f = Err e ->
         auto_arima_model M (y_train w) (y_test w) (forecast_days w) = Err e
         \/ lstm_model M (y_train w) (y_test w) (forecast_days w) = Err e
         \/ Orchestrator.MCMC_model M (y_train w) (y_test w) (forecast_days w)
            = Err e.
Proof.
  intros Hne.
  destruct (windows_nonempty hist v f Hne) as [w Hw].
  exists w; split; [exact Hw|].
  unfold get_forecast; rewrite Hw; cbn [bind].
  split; [reflexivity|].
  intros e; unfold forecast_from.
  destruct (auto_arima_model M _ _ _) as [[fa ea]|ea]; cbn [bind];
    [|intros [= ->]; now left].
  destruct (lstm_model M _ _ _) as [[fl el]|el]; cbn [bind];
    [|intros [= ->]; right; now left].
  destruct (Orchestrator.MCMC_model M _ _ _) as [[fm em]|em]; cbn [bind];
    [discriminate|intros [= ->]; right; now right].
Qed.

Lemma windowing_checks_no_length_witness :
  exists w,
    windows five_days 90 30 = Ok w
    /\ get_forecast steady_models five_days 90 30 = forecast_from steady_models w
    /\ forall e,
         get_forecast steady_models five_days 90 30 = Err e ->
         auto_arima_model steady_models
           (y_train w) (y_test w) (forecast_days w) = Err e
         \/ lstm_model steady_models
              (y_train w) (y_test w) (forecast_days w) = Err e
         \/ Orchestrator.MCMC_model steady_models
              (y_train w) (y_test w) (forecast_days w) = Err e.
Proof.
  apply (windowing_checks_no_length steady_models five_days 90 30).
  discriminate.
Defined.

(* ================================================================== *)
(** * Directional accuracy *)

Lemma getitem_nth {A} (l : list A) (i : nat) (d : A) :
  (i < length l)%nat -> getitem l (Z.of_nat i) = Ok (nth i l d).
Proof.
  intros Hi; unfold getitem.
  destruct (Z.ltb_spec (Z.of_nat i) 0); [lia|].
  destruct (Z.leb_spec 0 (Z.of_nat i)); [|lia].
  destruct (Z.ltb_spec (Z.of_nat i) (Z.of_nat (length l))); [|lia].
  cbn [andb]; rewrite Nat2Z.id.
  now rewrite (nth_error_nth' l d Hi).
Qed.

Lemma getitem_out_of_range {A} (l : list A) (k : Z) :
  Z.of_nat (length l) <= k -> getitem l k = Err IndexError.
Proof.
  intros Hk; unfold getitem.
  destruct (Z.ltb_spec k 0); [lia|].
  destruct (Z.ltb_spec k (Z.of_nat (length l))); [lia|].
  now rewrite andb_false_r.
Qed.

Lemma lt0_not_ge0 (v : R) : lt0 v = negb (ge0 v).
Proof.
  unfold lt0, ge0.
  destruct (Rlt_dec v 0), (Rle_dec 0 v); try reflexivity; lra.
Qed.

(** The test of the loop is the equality of the two sign buckets. *)
Lemma same_bucket_test (a p : R) :
  (ge0 a && ge0 p) || (lt0 a && lt0 p) = Bool.eqb (sign_bucket a) (sign_bucket p).
Proof.
  unfold sign_bucket; rewrite !lt0_not_ge0.
  now destruct (ge0 a), (ge0 p).
Qed.

Lemma direction_step_value (actual predicted : list R) (c : Z) (i : nat) :
  length actual = length predicted ->
  (1 <= i < length actual)%nat ->
  direction_step actual predicted c (Z.of_nat i)
  = Ok (c + (if same_direction actual predicted i then 1 else 0)).
Proof.
  intros Hlen Hi; unfold direction_step.
  replace (Z.of_nat i - 1) with (Z.of_nat (i - 1)) by lia.
  rewrite (getitem_nth actual i 0%R), (getitem_nth actual (i - 1) 0%R),
    (getitem_nth predicted i 0%R) by lia.
  cbn [bind]; rewrite same_bucket_test; fold (same_direction actual predicted i).
  destruct (same_direction actual predicted i); f_equal; lia.
Qed.

Lemma direction_loop_value (actual predicted : list R) (js : list nat) (c : Z) :
  length actual = length predicted ->
  Forall (fun i => (1 <= i < length actual)%nat) js ->
  for_each (direction_step actual predicted) c (map Z.of_nat js)
  = Ok (c + Z.of_nat (length (filter (same_direction actual predicted) js))).
Proof.
  intros Hlen; revert c; induction js as [|i js IH]; intros c Hall.
  - cbn; f_equal; lia.
  - apply Forall_cons_iff in Hall as [Hi Hall].
    cbn [map for_each filter].
    rewrite direction_step_value by assumption.
    rewrite IH by assumption.
    destruct (same_direction actual predicted i); cbn [length]; f_equal; lia.
Qed.

Lemma range_from_one (n : nat) :
  range 1 (Z.of_nat n) = map Z.of_nat (seq 1 (n - 1)).
Proof.
  unfold range.
  replace (Z.to_nat (Z.of_nat n - 1)) with (n - 1)%nat by lia.
  rewrite <- seq_shift, map_map.
  apply map_ext; intros i; lia.
Qed.

Lemma filter_keeps_all {A} (p : A -> bool) (l : list A) :
  (forall a, In a l -> p a = true) -> filter p l = l.
Proof.
  induction l as [|a l IH]; intros Hall; cbn [filter]; [reflexivity|].
  rewrite (Hall a (or_introl eq_refl)); f_equal.
  apply IH; intros b Hb; apply Hall; now right.
Qed.

Lemma filter_drops_all {A} (p : A -> bool) (l : list A) :
  (forall a, In a l -> p a = false) -> filter p l = [].
Proof.
  induction l as [|a l IH]; intros Hall; cbn [filter]; [reflexivity|].
  rewrite (Hall a (or_introl eq_refl)).
  apply IH; intros b Hb; apply Hall; now right.
Qed.

Lemma matching_count_le (actual predicted : list R) :
  (matching_count actual predicted <= length actual - 1)%nat.
Proof.
  unfold matching_count.
  etransitivity; [apply filter_length_le|]; now rewrite length_seq.
Qed.

Lemma directional_accuracy_run (actual predicted : list R) :
  length actual = length predicted ->
  (2 <= length actual)%nat ->
  calculate_directional_accuracy actual predicted
  = Ok (INR (matching_count actual predicted)
        / INR (length actual - 1))%R.
Proof.
  intros Hlen Hn; unfold calculate_directional_accuracy.
  rewrite (proj2 (Nat.eqb_eq _ _) Hlen); cbn [negb].
  rewrite range_from_one, direction_loop_value; [|exact Hlen|].
  - cbn [bind]; unfold true_div.
    destruct (Z.eqb_spec (Z.of_nat (length actual) - 1) 0); [lia|].
    rewrite Z.add_0_l, !INR_IZR_INZ; fold (matching_count actual predicted).
    do 3 f_equal; lia.
  - apply Forall_forall; intros i Hi; apply in_seq in Hi; lia.
Qed.

(** C6: on two sequences of the same length, at least 2, the directional
    accuracy is the number of indices of [1, len) where the actual move and
    the predicted move fall in the same sign bucket, divided by [len - 1]:
    a value of [0, 1], equal to 1 when the buckets match at every index
    and to 0 when they match at none. *)
Theorem directional_accuracy_is_matching_fraction
    (actual predicted : list R) :
  length actual = length predicted ->
  (2 <= length actual)%nat ->
  exists da,
    calculate_directional_accuracy actual predicted = Ok da
    /\ da = (INR (matching_count actual predicted)
             / INR (length actual - 1))%R
    /\ (0 <= da <= 1)%R
    /\ ((forall i, (1 <= i < length actual)%nat ->
                   same_direction actual predicted i = true) -> da = 1%R)
    /\ ((forall i, (1 <= i < length actual)%nat ->
                   same_direction actual predicted i = false) -> da = 0%R).
Proof.
  intros Hlen Hn; eexists; split; [now apply directional_accuracy_run|].
  split; [reflexivity|].
  assert (Htotal : (0 < INR (length actual - 1))%R) by (apply lt_0_INR; lia).
  pose proof (matching_count_le actual predicted) as Hle.
  apply le_INR in Hle.
  pose proof (pos_INR (matching_count actual predicted)) as Hpos.
  split; [split|split].
  - apply Rmult_le_pos; [exact Hpos|].
    left; now apply Rinv_0_lt_compat.
  - apply (Rmult_le_reg_r (INR (length actual - 1))); [exact Htotal|].
    unfold Rdiv; rewrite Rmult_assoc, Rinv_l by lra; lra.
  - intros Hall.
    replace (matching_count actual predicted) with (length actual - 1)%nat.
    + unfold Rdiv; apply Rinv_r; lra.
    + unfold matching_count; rewrite filter_keeps_all, length_seq.
      * reflexivity.
      * intros i Hi; apply in_seq in Hi; apply Hall; lia.
  - intros Hnone.
    replace (matching_count actual predicted) with 0%nat.
    + cbn [INR]; unfold Rdiv; apply Rmult_0_l.
    + unfold matching_count.
      rewrite filter_drops_all; [reflexivity|].
      intros i Hi; apply in_seq in Hi; apply Hnone; lia.
Qed.

Lemma directional_accuracy_is_matching_fraction_witness :
  exists da,
    calculate_directional_accuracy [1; 2; 3]%R [1; 3; 2]%R = Ok da
    /\ da = (INR (matching_count [1; 2; 3]%R [1; 3; 2]%R)
             / INR (length [1; 2; 3]%R - 1))%R
    /\ (0 <= da <= 1)%R
    /\ ((forall i, (1 <= i < length [1; 2; 3]%R)%nat ->
                   same_direction [1; 2; 3]%R [1; 3; 2]%R i = true) ->
        da = 1%R)
    /\ ((forall i, (1 <= i < length [1; 2; 3]%R)%nat ->
                   same_direction [1; 2; 3]%R [1; 3; 2]%R i = false) ->
        da = 0%R).
Proof.
  apply (directional_accuracy_is_matching_fraction [1; 2; 3]%R [1; 3; 2]%R).
  - reflexivity.
  - cbn [length]; lia.
Defined.

(** A first call that is right and a second that is wrong: one match out
    of two. *)
Example directional_accuracy_half :
  calculate_directional_accuracy [1; 2; 3]%R [1; 3; 1]%R = Ok (1 / 2)%R.
Proof.
  rewrite directional_accuracy_run by (cbn [length]; lia).
  unfold matching_count, same_direction, sign_bucket, ge0; cbn.
  repeat match goal with
         | |- context [Rle_dec ?a ?b] => destruct (Rle_dec a b); try lra
         end; cbn [Bool.eqb filter length].
  cbn; f_equal; lra.
Qed.

(** C7, as stated, fails: on one-element sequences the final division
    raises [ZeroDivisionError], not [DegenerateInputError]; on empty
    sequences a value is returned. *)
Lemma degenerate_input_not_named :
  calculate_directional_accuracy [1%R] [1%R] = Err ZeroDivisionError
  /\ calculate_directional_accuracy [1%R] [1%R] <> Err DegenerateInputError
  /\ calculate_directional_accuracy [] [] <> Err DegenerateInputError.
Proof.
  repeat split; try reflexivity; discriminate.
Qed.

(** C7, amended: on two sequences of one element each the function fails,
    with the [ZeroDivisionError] of the division by [len - 1 = 0]. *)
Theorem single_point_divides_by_zero (actual predicted : list R) :
  length actual = 1%nat -> length predicted = 1%nat ->
  calculate_directional_accuracy actual predicted = Err ZeroDivisionError.
Proof.
  intros Ha Hp; unfold calculate_directional_accuracy.
  rewrite Ha, Hp; reflexivity.
Qed.

Lemma single_point_divides_by_zero_witness :
  calculate_directional_accuracy [1%R] [1%R] = Err ZeroDivisionError.
Proof.
  apply (single_point_divides_by_zero [1%R] [1%R]); reflexivity.
Defined.

(** On two empty sequences no pass of the loop runs and the division is
    [0 / -1]: a value is returned. *)
Lemma empty_input_returns_value :
  calculate_directional_accuracy [] [] = Ok (IZR 0 / IZR (-1))%R.
Proof. reflexivity. Qed.

(** Sequences of different lengths are refused. *)
Lemma length_mismatch_refused (actual predicted : list R) :
  length actual <> length predicted ->
  calculate_directional_accuracy actual predicted = Err ValueError.
Proof.
  intros Hlen; unfold calculate_directional_accuracy.
  now rewrite (proj2 (Nat.eqb_neq _ _) Hlen).
Qed.

(* ================================================================== *)
(** * The sequence model: what the training inputs depend on *)



Lemma training_set_same_scaler (y_train v1 v2 : Series R) :
  fit (values y_train ++ values v1) = fit (values y_train ++ values v2) ->
  lstm_training_set y_train v1 = lstm_training_set y_train v2.
Proof.
  intros Hfit; unfold lstm_training_set; rewrite Hfit; reflexivity.
Qed.

Lemma fold_min_above (v : list R) (m : R) :
  Forall (fun p => (m <= p)%R) v -> fold_left Rmin v m = m.
Proof.
  induction 1 as [|p v Hp _ IH]; cbn [fold_left]; [reflexivity|].
  now rewrite Rmin_left.
Qed.

Lemma fold_max_below (v : list R) (m : R) :
  Forall (fun p => (p <= m)%R) v -> fold_left Rmax v m = m.
Proof.
  induction 1 as [|p v Hp _ IH]; cbn [fold_left]; [reflexivity|].
  now rewrite Rmax_left.
Qed.

(** Validation prices within the range of the training prices leave the
    scaler what the training prices alone make it. *)
Lemma fit_within_training_range (y_train v : Series R) (s : MinMaxScaler) :
  fit_on_train y_train = Ok s ->
  Forall (fun p => (data_min s <= p <= data_max s)%R) (values v) ->
  fit (values y_train ++ values v) = Ok s.
Proof.
  unfold fit_on_train, fit; intros Hfit Hin.
  destruct (values y_train) as [|x0 X]; [discriminate|].
  injection Hfit as <-; cbn [app data_min data_max] in Hin |- *.
  rewrite !fold_left_app, fold_min_above, fold_max_below; [reflexivity| |].
  - eapply Forall_impl; [|exact Hin]; cbn; tauto.
  - eapply Forall_impl; [|exact Hin]; cbn; tauto.
Qed.




(** In particular validation prices within the range of the training
    prices do not change the training inputs. *)
Corollary training_unchanged_within_training_range
    (K : Keras) (y_train v1 v2 : Series R) (s : MinMaxScaler) :
  fit_on_train y_train = Ok s ->
  Forall (fun p => (data_min s <= p <= data_max s)%R) (values v1) ->
  Forall (fun p => (data_min s <= p <= data_max s)%R) (values v2) ->
  lstm_training_set y_train v1 = lstm_training_set y_train v2
  /\ lstm_trained_model y_train v1 = lstm_trained_model y_train v2.
Proof.
  intros Hfit Hv1 Hv2.
  assert (Hset : lstm_training_set y_train v1 = lstm_training_set y_train v2).
  { apply training_set_same_scaler.
    now rewrite !(fit_within_training_range y_train _ s). }
  split; [exact Hset|].
  unfold lstm_trained_model; now rewrite Hset.
Qed.


(* ================================================================== *)
(** * The stochastic simulation: noise array and price path *)

Lemma N_value : Z.of_nat N = 1000.
Proof. reflexivity. Qed.

Lemma for_each_app {S I} (body : S -> I -> result S) (st : S)
    (l1 l2 : list I) :
  for_each body st (l1 ++ l2)
  = bind (for_each body st l1) (fun st' => for_each body st' l2).
Proof.
  revert st; induction l1 as [|i l1 IH]; intros st; cbn; [reflexivity|].
  destruct (body st i); cbn; [apply IH|reflexivity].
Qed.

Lemma range_empty (a b : Z) : b <= a -> range a b = [].
Proof.
  intros Hab; unfold range.
  replace (Z.to_nat (b - a)) with 0%nat by lia; reflexivity.
Qed.

Lemma range_first (a b : Z) : a < b -> range a b = a :: range (a + 1) b.
Proof.
  intros Hab; unfold range.
  replace (Z.to_nat (b - a)) with (S (Z.to_nat (b - (a + 1)))) by lia.
  cbn [seq map]; f_equal; [lia|].
  rewrite <- seq_shift, map_map; apply map_ext; intros i; lia.
Qed.

Lemma seq_from (s n : nat) : seq s n = map (fun i => (s + i)%nat) (seq 0 n).
Proof.
  revert s; induction n as [|n IH]; intros s; cbn [seq map]; [reflexivity|].
  f_equal; [lia|].
  rewrite <- !seq_shift, (IH s), !map_map.
  apply map_ext; intros i; lia.
Qed.

Lemma range_split (a m b : Z) :
  a <= m <= b -> range a b = range a m ++ range m b.
Proof.
  intros Hm; unfold range.
  replace (Z.to_nat (b - a))
    with (Z.to_nat (m - a) + Z.to_nat (b - m))%nat by lia.
  rewrite seq_app, map_app; f_equal.
  cbn [Nat.add]; rewrite (seq_from (Z.to_nat (m - a))), map_map.
  apply map_ext; intros i; lia.
Qed.

Lemma getitem_in_range {A} (l : list A) (k : Z) :
  - Z.of_nat (length l) <= k < Z.of_nat (length l) ->
  exists a, getitem l k = Ok a.
Proof.
  intros Hk; unfold getitem.
  set (pos := if k <? 0 then Z.of_nat (length l) + k else k).
  assert (Hpos : 0 <= pos < Z.of_nat (length l)).
  { unfold pos; destruct (Z.ltb_spec k 0); lia. }
  destruct (Z.leb_spec 0 pos); [|lia].
  destruct (Z.ltb_spec pos (Z.of_nat (length l))); [|lia].
  cbn [andb].
  destruct (nth_error l (Z.to_nat pos)) as [a|] eqn:Hnth; [now exists a|].
  apply nth_error_None in Hnth; lia.
Qed.

Section SamplerFacts.
Context `{RandomSource}.

Lemma MCMC_loop_length (k : nat) (r p : R) (pts : list R) (g : rng) :
  length (fst (MCMC_loop k r p pts g)) = (length pts + k)%nat.
Proof.
  revert r p pts g; induction k as [|k IH]; intros r p pts g;
    cbn [MCMC_loop fst]; [lia|].
  destruct (np_random_uniform (-1) 1 g) as [step g1].
  destruct (Rge_dec (q (r + step)) p).
  - rewrite IH, length_app; cbn [length]; lia.
  - destruct (np_random_rand g1) as [u g2].
    destruct (Rlt_dec u (q (r + step) / p));
      rewrite IH, length_app; cbn [length]; lia.
Qed.

(** The noise array always has [N] = 1000 points. *)
Lemma MCMC_length (n : nat) (g : rng) : length (fst (MCMC n g)) = N.
Proof.
  unfold MCMC.
  pose proof (MCMC_loop_length N 0 (q 0) [] g) as Hloop.
  destruct (MCMC_loop N 0 (q 0) [] g) as [pts g1]; cbn [fst] in Hloop.
  rewrite <- (Permutation_length (random_sample_all pts g1)).
  exact Hloop.
Qed.

Lemma MH_body_in_range (delta_t : R) (st : MH_state) (timestep : Z) :
  MH_invariant st ->
  0 <= timestep + 5 < 1000 ->
  exists st',
    MH_body delta_t st timestep = Ok st'
    /\ MH_invariant st'
    /\ length (fst (fst st')) = S (length (fst (fst st))).
Proof.
  destruct st as [[stock_pred i] g]; intros [Hi Hlen] Ht.
  unfold MH_body.
  destruct (getitem_in_range stock_pred (- i)) as [price ->]; [lia|].
  cbn [bind].
  pose proof (MCMC_length N g) as HN.
  destruct (MCMC N g) as [pts g1]; cbn [fst] in HN.
  destruct (getitem_in_range pts (timestep + 5)) as [z ->];
    [rewrite HN, N_value; lia|].
  cbn [bind]; eexists; split; [reflexivity|].
  cbn [MH_invariant fst]; rewrite length_app; cbn [length].
  repeat split; lia.
Qed.

Lemma MH_body_out_of_range (delta_t : R) (st : MH_state) (timestep : Z) :
  MH_invariant st ->
  1000 <= timestep + 5 ->
  MH_body delta_t st timestep = Err IndexError.
Proof.
  destruct st as [[stock_pred i] g]; intros [Hi Hlen] Ht.
  unfold MH_body.
  destruct (getitem_in_range stock_pred (- i)) as [price ->]; [lia|].
  cbn [bind].
  pose proof (MCMC_length N g) as HN.
  destruct (MCMC N g) as [pts g1]; cbn [fst] in HN.
  rewrite getitem_out_of_range by (rewrite HN, N_value; lia).
  reflexivity.
Qed.

Lemma MH_loop_in_range (delta_t : R) (timesteps : list Z) (st : MH_state) :
  MH_invariant st ->
  Forall (fun t => 0 <= t + 5 < 1000) timesteps ->
  exists st',
    for_each (MH_body delta_t) st timesteps = Ok st'
    /\ MH_invariant st'
    /\ length (fst (fst st'))
       = (length (fst (fst st)) + length timesteps)%nat.
Proof.
  intros Hinv Hall; revert st Hinv.
  induction Hall as [|t timesteps Ht _ IH]; intros st Hinv.
  - exists st; cbn; repeat split; [exact Hinv|lia].
  - destruct (MH_body_in_range delta_t st t Hinv Ht) as (st1 & Hb & Hinv1 & Hl1).
    destruct (IH st1 Hinv1) as (st' & Hloop & Hinv' & Hl').
    exists st'; cbn [for_each]; rewrite Hb.
    repeat split; [exact Hloop|exact Hinv'|].
    rewrite Hl', Hl1; cbn [length]; lia.
Qed.

Lemma range_in_bounds (a b : Z) :
  -5 <= a -> b <= 995 -> Forall (fun t => 0 <= t + 5 < 1000) (range a b).
Proof.
  intros Ha Hb; apply Forall_forall; intros t Ht.
  apply in_range in Ht; lia.
Qed.

Lemma MH_invariant_start (price : R) (g : rng) : MH_invariant ([price], 0, g).
Proof. cbn; lia. Qed.

(** Up to 995 steps the loop completes, with one price per step. *)
Lemma MH_path_short {A} (y_train : list R) (y_test : list A) (g : rng) :
  y_train <> [] ->
  (1 <= length y_test <= 995)%nat ->
  exists path g',
    MH_path y_train y_test g = Ok (path, g')
    /\ length path = length y_test.
Proof.
  intros Htrain Hlen; unfold MH_path, true_div.
  destruct (Z.eqb_spec (Z.of_nat (length y_test)) 0); [lia|].
  cbn [bind]; rewrite (getitem_last y_train 0%R Htrain); cbn [bind].
  destruct (MH_loop_in_range (IZR maturnity / IZR (Z.of_nat (length y_test)))
              (range 1 (Z.of_nat (length y_test)))
              ([last y_train 0%R], 0, g))
    as ([[path i] g'] & -> & _ & Hl).
  - apply MH_invariant_start.
  - apply range_in_bounds; lia.
  - cbn [bind]; exists path, g'; split; [reflexivity|].
    cbn [fst length] in Hl; rewrite Hl, length_range; lia.
Qed.

(** From 996 steps on, the pass for [timestep = 995] reads [pts[1000]]. *)
Lemma MH_path_long {A} (y_train : list R) (y_test : list A) (g : rng) :
  y_train <> [] ->
  (995 < length y_test)%nat ->
  MH_path y_train y_test g = Err IndexError.
Proof.
  intros Htrain Hlen; unfold MH_path, true_div.
  destruct (Z.eqb_spec (Z.of_nat (length y_test)) 0); [lia|].
  cbn [bind]; rewrite (getitem_last y_train 0%R Htrain); cbn [bind].
  rewrite (range_split 1 995 (Z.of_nat (length y_test))) by lia.
  rewrite (range_first 995) by lia.
  rewrite for_each_app.
  destruct (MH_loop_in_range (IZR maturnity / IZR (Z.of_nat (length y_test)))
              (range 1 995) ([last y_train 0%R], 0, g))
    as (st & -> & Hinv & _).
  - apply MH_invariant_start.
  - apply range_in_bounds; lia.
  - cbn [bind for_each].
    rewrite MH_body_out_of_range by (assumption || lia).
    reflexivity.
Qed.

End SamplerFacts.

Section Abort.
Context `{RandomSource} `{MetricsLibrary}.

Lemma MH_aborts_with_path (y_train : list R) (y_test : list cell)
    (is_forecast : bool) (g : rng) (e : exn) :
  MH_path y_train y_test g = Err e ->
  MH y_train y_test is_forecast g = Err e.
Proof. unfold MH; now intros ->. Qed.

Lemma MCMC_model_aborts_with_validation (y_train y_test : Series R)
    (forecast_days : list Timestamp) (g : rng) (e : exn) :
  MH_path (values y_train) (map Some (values y_test)) g = Err e ->
  Simulation.MCMC_model y_train y_test forecast_days g = Err e.
Proof.
  intros Hpath; unfold Simulation.MCMC_model.
  now rewrite (MH_aborts_with_path _ _ false g e Hpath).
Qed.

(** A validation series of more than 995 points aborts the adapter. *)
Lemma MCMC_model_long_validation (y_train y_test : Series R)
    (forecast_days : list Timestamp) (g : rng) :
  y_train <> [] ->
  (995 < length y_test)%nat ->
  Simulation.MCMC_model y_train y_test forecast_days g = Err IndexError.
Proof.
  intros Htrain Hlen; apply MCMC_model_aborts_with_validation.
  apply MH_path_long.
  - unfold values; destruct y_train; [contradiction|discriminate].
  - unfold values; now rewrite !length_map.
Qed.

End Abort.

(** C10: [MH] reads the 1000-point noise array at [timestep + 5] for
    [timestep] from 1 to [len(y_test) - 1]. With a non-empty [y_train],
    the price loop raises [IndexError] exactly when [y_test] has more than
    995 points, and [MH] aborts with it; with 1 to 995 points every read
    is in range and the loop returns one price per point. *)
Theorem noise_index_in_range_up_to_995
    (RS : RandomSource) (ML : MetricsLibrary)
    (y_train : list R) (y_test : list cell) (is_forecast : bool) (g : rng) :
  y_train <> [] ->
  (MH_path y_train y_test g = Err IndexError <-> (995 < length y_test)%nat)
  /\ ((995 < length y_test)%nat ->
      MH y_train y_test is_forecast g = Err IndexError)
  /\ ((1 <= length y_test <= 995)%nat ->
      exists path g',
        MH_path y_train y_test g = Ok (path, g')
        /\ length path = length y_test).
Proof.
  intros Htrain.
  assert (Hlong : (995 < length y_test)%nat ->
                  MH_path y_train y_test g = Err IndexError)
    by (intros Hlen; now apply MH_path_long).
  assert (Hshort : (1 <= length y_test <= 995)%nat ->
                   exists path g',
                     MH_path y_train y_test g = Ok (path, g')
                     /\ length path = length y_test)
    by (intros Hlen; now apply MH_path_short).
  split; [split; [|exact Hlong]|split; [|exact Hshort]].
  - intros Herr.
    destruct (Nat.lt_ge_cases 995 (length y_test)) as [Hlt|Hge]; [exact Hlt|].
    destruct (Nat.eq_dec (length y_test) 0) as [Hzero|Hpos].
    + unfold MH_path, true_div in Herr; rewrite Hzero in Herr.
      discriminate Herr.
    + destruct Hshort as (path & g' & Hok & _); [lia|].
      rewrite Hok in Herr; discriminate Herr.
  - intros Hlen; apply MH_aborts_with_path; now apply Hlong.
Qed.

Lemma noise_index_in_range_up_to_995_witness :
  @MH still_source
     {| mean_squared_error := fun _ _ => Ok 0%R; smape := fun _ _ => Ok 0%R |}
     [100%R] (repeat None 996) true tt = Err IndexError
  /\ exists path g',
       @MH_path still_source cell [100%R] (repeat None 995) tt
       = Ok (path, g')
       /\ length path = length (repeat (@None R) 995).
Proof.
  split.
  - apply (noise_index_in_range_up_to_995 still_source
             {| mean_squared_error := fun _ _ => Ok 0%R;
                smape := fun _ _ => Ok 0%R |}
             [100%R] (repeat None 996) true tt).
    + discriminate.
    + rewrite repeat_length; lia.
  - apply (noise_index_in_range_up_to_995 still_source
             {| mean_squared_error := fun _ _ => Ok 0%R;
                smape := fun _ _ => Ok 0%R |}
             [100%R] (repeat None 995) true tt).
    + discriminate.
    + rewrite repeat_length; lia.
Defined.

(* ================================================================== *)
(** * The price a step starts from *)

(** In the first pass [stock_pred[-i]] is [stock_pred[0]]; in every later
    pass [stock_pred] holds [i + 1] prices and [stock_pred[-i]] is
    [stock_pred[1]], the price of the first step, not the last price. *)
Lemma step_base_price (stock_pred : list R) (i : Z) :
  Z.of_nat (length stock_pred) = i + 1 ->
  0 <= i ->
  getitem stock_pred (- i)
  = Ok (nth (if i =? 0 then 0 else 1) stock_pred 0%R).
Proof.
  intros Hlen Hi.
  destruct (Z.eqb_spec i 0) as [->|Hne].
  - apply (getitem_nth stock_pred 0 0%R); lia.
  - unfold getitem.
    destruct (Z.ltb_spec (- i) 0); [|lia].
    replace (Z.of_nat (length stock_pred) + - i) with 1 by lia.
    destruct (Z.ltb_spec 1 (Z.of_nat (length stock_pred))); [|lia].
    cbn [Z.leb andb Z.compare Z.to_nat Pos.to_nat Pos.iter_op Nat.add].
    rewrite (nth_error_nth' stock_pred 0%R) by lia; reflexivity.
Qed.

Lemma still_MCMC_loop (k : nat) (pts : list R) :
  @MCMC_loop still_source k 0 (q 0) pts tt = (pts ++ repeat 0%R k, tt).
Proof.
  revert pts; induction k as [|k IH]; intros pts; cbn [MCMC_loop repeat].
  - now rewrite app_nil_r.
  - cbn [np_random_uniform still_source]; rewrite Rplus_0_r.
    destruct (Rge_dec (q 0) (q 0)) as [_|Hlt]; [|exfalso; apply Hlt; lra].
    rewrite IH, <- app_assoc; reflexivity.
Qed.

Lemma still_MCMC (n : nat) : @MCMC still_source n tt = (repeat 0%R N, tt).
Proof.
  unfold MCMC; rewrite still_MCMC_loop; cbn [app].
  cbn [random_sample still_source]; unfold still_sample.
  now rewrite firstn_all.
Qed.

Lemma still_MH_body (delta_t : R) (stock_pred : list R) (i timestep : Z)
    (price : R) :
  getitem stock_pred (- i) = Ok price ->
  0 <= timestep + 5 < 1000 ->
  @MH_body still_source delta_t (stock_pred, i, tt) timestep
  = Ok (stock_pred ++ [(price * growth delta_t 0)%R], i + 1, tt).
Proof.
  intros Hprice Ht; unfold MH_body; rewrite Hprice; cbn [bind].
  rewrite still_MCMC.
  replace (timestep + 5) with (Z.of_nat (Z.to_nat (timestep + 5))) by lia.
  rewrite (getitem_nth _ _ 0%R) by (rewrite repeat_length; unfold N; lia).
  now rewrite nth_repeat.
Qed.

Lemma growth_above_one (delta_t : R) :
  (0 < delta_t)%R -> (1 < growth delta_t 0)%R.
Proof.
  intros Hdt; unfold growth, risk_free, volatility.
  rewrite <- exp_0; apply exp_increasing.
  rewrite Rmult_0_r, Rplus_0_r; nra.
Qed.

(** What one pass of the loop appends, for any generator: the price it
    starts from times the factor of the noise it reads. From the second
    pass on the price it starts from is [stock_pred[1]]. *)
Lemma MH_body_appends (RS : RandomSource) (delta_t : R)
    (stock_pred : list R) (i timestep : Z) (g : rng) (st' : MH_state) :
  MH_invariant (stock_pred, i, g) ->
  MH_body delta_t (stock_pred, i, g) timestep = Ok st' ->
  exists z,
    getitem (fst (MCMC N g)) (timestep + 5) = Ok z
    /\ st' = (stock_pred
              ++ [(nth (if i =? 0 then 0 else 1) stock_pred 0
                   * growth delta_t z)%R],
              i + 1, snd (MCMC N g)).
Proof.
  intros [Hi Hlen]; unfold MH_body.
  rewrite (step_base_price stock_pred i Hlen Hi); cbn [bind].
  destruct (MCMC N g) as [pts g1]; cbn [fst snd].
  destruct (getitem pts (timestep + 5)) as [z|e]; cbn [bind];
    [|discriminate].
  intros [= <-]; now exists z.
Qed.

(** C8, at a failing input: four steps from a last price of 100, every
    draw of the generators being 0. With [f] the factor of one step, the
    path is 100, 100 f, 100 f f and then again (100 f) f: the third
    step multiplies the price of the first step, not the previous price,
    which would give (100 f f) f. *)
Theorem third_step_restarts_from_first_step :
  @MH_path still_source cell [100%R] [None; None; None; None] tt
  = Ok ([100; 100 * growth (1 / 4) 0;
         100 * growth (1 / 4) 0 * growth (1 / 4) 0;
         100 * growth (1 / 4) 0 * growth (1 / 4) 0]%R, tt)
  /\ (100 * growth (1 / 4) 0 * growth (1 / 4) 0
      <> 100 * growth (1 / 4) 0 * growth (1 / 4) 0 * growth (1 / 4) 0)%R.
Proof.
  split.
  - unfold MH_path.
    change (true_div maturnity (Z.of_nat (length [@None R; None; None; None])))
      with (Ok (1 / 4)%R).
    change (getitem [100%R] (-1)) with (Ok 100%R).
    change (range 1 (Z.of_nat (length [@None R; None; None; None])))
      with [1; 2; 3].
    cbn [bind for_each].
    rewrite (still_MH_body _ _ _ _ 100%R) by (reflexivity || lia).
    cbn [app Z.add Pos.add].
    rewrite (still_MH_body _ _ _ _ (100 * growth (1 / 4) 0)%R)
      by (reflexivity || lia).
    cbn [app Z.add Pos.add Pos.succ].
    rewrite (still_MH_body _ _ _ _ (100 * growth (1 / 4) 0)%R)
      by (reflexivity || lia).
    reflexivity.
  - pose proof (growth_above_one (1 / 4) ltac:(lra)) as Hf.
    generalize dependent (growth (1 / 4) 0); intros f Hf Heq.
    assert (Hff : (1 < f * f)%R) by nra.
    assert (Hzero : (100 * (f * f) * (f - 1) = 0)%R) by lra.
    apply Rmult_integral in Hzero as [Hzero|Hzero]; lra.
Qed.

(* ================================================================== *)
(** * Directional accuracy: outcomes and reference predictors *)

Lemma directional_accuracy_one_point (actual predicted : list R) :
  length actual = 1%nat -> length predicted = 1%nat ->
  calculate_directional_accuracy actual predicted = Err ZeroDivisionError.
Proof.
  intros Ha Hp; unfold calculate_directional_accuracy.
  rewrite Ha, Hp; reflexivity.
Qed.

(** X1: the metric raises [ValueError] exactly when the two sequences
    differ in length, and its index reads never raise [IndexError]. *)
Theorem directional_accuracy_errors (actual predicted : list R) :
  (calculate_directional_accuracy actual predicted = Err ValueError
   <-> length actual <> length predicted)
  /\ calculate_directional_accuracy actual predicted <> Err IndexError.
Proof.
  destruct (Nat.eq_dec (length actual) (length predicted)) as [Heq|Hne].
  - assert (Hnone : forall e, e <> ZeroDivisionError ->
                              calculate_directional_accuracy actual predicted
                              <> Err e).
    { intros e He.
      destruct (Nat.lt_ge_cases (length actual) 2) as [Hlt|Hge].
      - destruct actual as [|a [|a' actual]]; [| |cbn in Hlt; lia].
        + destruct predicted; [discriminate|discriminate Heq].
        + rewrite directional_accuracy_one_point by (cbn in *; lia).
          congruence.
      - rewrite directional_accuracy_run by assumption; discriminate. }
    split; [split|].
    + intros Herr; exfalso; revert Herr; apply Hnone; discriminate.
    + intros Hdiff; contradiction.
    + apply Hnone; discriminate.
  - rewrite (length_mismatch_refused actual predicted Hne).
    split; [split; [intros _; exact Hne|reflexivity]|discriminate].
Qed.

Lemma matching_count_ext (actual predicted : list R) (p : nat -> bool) :
  (forall i, (1 <= i < length actual)%nat ->
             same_direction actual predicted i = p i) ->
  matching_count actual predicted
  = length (filter p (seq 1 (length actual - 1))).
Proof.
  intros Hext; unfold matching_count; f_equal.
  apply filter_ext_in; intros i Hi; apply in_seq in Hi; apply Hext; lia.
Qed.

(** X2: a prediction equal to the actual series scores 1. *)
Theorem perfect_prediction_scores_one (actual : list R) :
  (2 <= length actual)%nat ->
  calculate_directional_accuracy actual actual = Ok 1%R.
Proof.
  intros Hn; rewrite directional_accuracy_run by (reflexivity || assumption).
  rewrite (matching_count_ext actual actual (fun _ => true)).
  - rewrite filter_keeps_all, length_seq by reflexivity.
    f_equal; unfold Rdiv; apply Rinv_r.
    apply not_0_INR; lia.
  - intros i _; unfold same_direction; apply eqb_reflx.
Qed.

Lemma perfect_prediction_scores_one_witness :
  calculate_directional_accuracy [3; 1; 2]%R [3; 1; 2]%R = Ok 1%R.
Proof.
  apply (perfect_prediction_scores_one [3; 1; 2]%R); cbn [length]; lia.
Defined.

Lemma ge0_zero : ge0 0 = true.
Proof. unfold ge0; destruct (Rle_dec 0 0); [reflexivity|lra]. Qed.

(** X3: a prediction that repeats the previous actual price is counted
    right at exactly the indices where the price did not fall: its score
    is the share of such indices. *)
Theorem repeating_previous_price_score (actual predicted : list R) :
  length actual = length predicted ->
  (2 <= length actual)%nat ->
  repeats_previous actual predicted ->
  calculate_directional_accuracy actual predicted
  = Ok (INR (not_falling_count actual) / INR (length actual - 1))%R.
Proof.
  intros Hlen Hn Hrep; rewrite directional_accuracy_run by assumption.
  rewrite (matching_count_ext actual predicted (not_falling actual));
    [reflexivity|].
  intros i Hi; unfold same_direction, not_falling, sign_bucket.
  rewrite (Hrep i Hi), Rminus_diag, ge0_zero.
  now destruct (ge0 _).
Qed.

Lemma repeating_previous_price_score_witness :
  calculate_directional_accuracy [1; 2; 1]%R [7; 1; 2]%R
  = Ok (INR (not_falling_count [1; 2; 1]%R) / INR (length [1; 2; 1]%R - 1))%R.
Proof.
  apply (repeating_previous_price_score [1; 2; 1]%R [7; 1; 2]%R).
  - reflexivity.
  - cbn [length]; lia.
  - intros [|[|[|i]]] Hi; cbn in Hi |- *; try reflexivity; lia.
Defined.

(** X4: the first predicted value is never scored: replacing it leaves the
    result unchanged. *)
Theorem first_prediction_not_scored (actual rest : list R) (p0 p0' : R) :
  calculate_directional_accuracy actual (p0 :: rest)
  = calculate_directional_accuracy actual (p0' :: rest).
Proof.
  destruct (Nat.eq_dec (length actual) (length (p0 :: rest))) as [Heq|Hne].
  - destruct (Nat.lt_ge_cases (length actual) 2) as [Hlt|Hge].
    + cbn [length] in Heq.
      rewrite !directional_accuracy_one_point by (cbn [length]; lia).
      reflexivity.
    + rewrite !directional_accuracy_run by (cbn [length] in *; lia).
      rewrite (matching_count_ext actual (p0 :: rest)
                 (same_direction actual (p0' :: rest))); [reflexivity|].
      intros [|i] Hi; [lia|reflexivity].
  - rewrite !length_mismatch_refused by (cbn [length] in *; lia).
    reflexivity.
Qed.

(* ================================================================== *)
(** * Windowing: the test window and the calendar of forecast days *)

Lemma count_while_stops {A} (p : A -> bool) (l : list A) (a : A) :
  In a l -> p a = false -> (count_while p l < length l)%nat.
Proof.
  induction l as [|b l IH]; intros Hin Hp; [contradiction|].
  cbn [count_while length]; destruct (p b) eqn:Hb; [|lia].
  destruct Hin as [->|Hin]; [congruence|].
  specialize (IH Hin Hp); lia.
Qed.

Lemma last_skipn {A} (n : nat) (l : list A) (d : A) :
  (n < length l)%nat -> last (skipn n l) d = last l d.
Proof.
  revert l; induction n as [|n IH]; intros l Hn; [reflexivity|].
  destruct l as [|a l]; [cbn in Hn; lia|].
  cbn [skipn]; rewrite IH by (cbn in Hn; lia).
  destruct l; [cbn in Hn; lia|reflexivity].
Qed.

Lemma skipn_nonempty {A} (n : nat) (l : list A) :
  (n < length l)%nat -> skipn n l <> [].
Proof.
  intros Hn Hnil.
  assert (Hlen : length (skipn n l) = 0%nat) by now rewrite Hnil.
  rewrite length_skipn in Hlen; lia.
Qed.

Lemma last_in {A} (l : list A) (d : A) : l <> [] -> In (last l d) l.
Proof.
  intros Hne; destruct (exists_last Hne) as (l' & a & ->).
  rewrite last_last; apply in_or_app; right; now left.
Qed.

Lemma increasing_le_last {A} (s : Series A) (r : Z * A) :
  increasing s -> In r s -> fst r <= last (index s) 0.
Proof.
  revert r; induction s as [|r0 s IH]; intros r Hinc Hin; [contradiction|].
  apply increasing_cons in Hinc as [Hs Hall].
  destruct s as [|r1 s].
  - destruct Hin as [->|[]]; cbn; lia.
  - change (last (index (r0 :: r1 :: s)) 0) with (last (index (r1 :: s)) 0).
    destruct Hin as [<-|Hin]; [|now apply IH].
    apply Forall_inv in Hall as Hr1.
    specialize (IH r1 Hs (or_introl eq_refl)); lia.
Qed.

(** X5: on an increasing, non-empty history and a validation span of at
    least 0 days the test window is never empty: it ends with the last row
    of the history, and all its rows are dated within the validation span
    before the last day. *)
Theorem test_window_ends_with_last_row
    (hist : Series R) (v f : Z) (w : WindowSet) (d : Z * R) :
  increasing hist -> hist <> [] -> 0 <= v ->
  windows hist v f = Ok w ->
  y_test w <> []
  /\ last (y_test w) d = last hist d
  /\ Forall (fun r => last_day w - v <= fst r <= last_day w) (y_test w).
Proof.
  intros Hinc Hne Hv Hw.
  apply windows_fields in Hw as (Hlast & _ & Hltd & _ & Htest & _).
  assert (Hidx : index hist <> [])
    by (destruct hist; [contradiction|discriminate]).
  assert (Hstop : (searchsorted_left (index hist) (last_train_day w)
                   < length hist)%nat).
  { unfold searchsorted_left.
    replace (length hist) with (length (index hist))
      by (unfold index; apply length_map).
    apply (count_while_stops _ _ (last (index hist) 0)).
    - now apply last_in.
    - apply Z.ltb_ge; lia. }
  rewrite Htest; unfold loc_from at 1 2.
  split; [now apply skipn_nonempty|].
  split; [now apply last_skipn|].
  rewrite loc_from_restrict by exact Hinc.
  apply Forall_forall; intros r Hr.
  apply filter_In in Hr as [Hin Hge]; apply Z.leb_le in Hge.
  pose proof (increasing_le_last hist r Hinc Hin); lia.
Qed.

Lemma test_window_ends_with_last_row_witness :
  y_test (window_set four_days 3 30 738837) <> []
  /\ last (y_test (window_set four_days 3 30 738837)) (0, 0%R)
     = last four_days (0, 0%R)
  /\ Forall (fun r => last_day (window_set four_days 3 30 738837) - 3
                      <= fst r
                      <= last_day (window_set four_days 3 30 738837))
            (y_test (window_set four_days 3 30 738837)).
Proof.
  apply (test_window_ends_with_last_row four_days 3 30
           (window_set four_days 3 30 738837) (0, 0%R)).
  - unfold increasing; cbn; repeat constructor; lia.
  - discriminate.
  - lia.
  - reflexivity.
Defined.

Lemma split_at_boundary {A} (lo hi : Z) (s : Series A) :
  increasing s -> lo <= hi ->
  restrict_from lo s
  = restrict_closed lo hi s ++ filter (fun r => hi <? fst r) s.
Proof.
  unfold restrict_from, restrict_closed; intros Hinc Hlohi.
  induction s as [|r s IH]; [reflexivity|].
  apply increasing_cons in Hinc as [Hs Hall].
  cbn [filter].
  destruct (Z.leb_spec lo (fst r)) as [Hlo|Hlo];
    destruct (Z.leb_spec (fst r) hi) as [Hhi|Hhi];
    destruct (Z.ltb_spec hi (fst r)) as [Hgt|Hgt]; try lia; cbn [andb app].
  - f_equal; now apply IH.
  - rewrite (filter_none (fun r0 => (lo <=? fst r0) && (fst r0 <=? hi))),
      !filter_all; [reflexivity| | |].
    + eapply Forall_impl; [|exact Hall]; cbn; intros r' Hr'.
      apply Z.ltb_lt; lia.
    + eapply Forall_impl; [|exact Hall]; cbn; intros r' Hr'.
      apply Z.leb_le; lia.
    + eapply Forall_impl; [|exact Hall]; cbn; intros r' Hr'.
      apply andb_false_iff; right; apply Z.leb_gt; lia.
  - now apply IH.
Qed.

Lemma filter_filter_implied {A} (p q : A -> bool) (l : list A) :
  (forall a, q a = true -> p a = true) ->
  filter q (filter p l) = filter q l.
Proof.
  intros Himp; induction l as [|a l IH]; [reflexivity|].
  cbn [filter]; destruct (p a) eqn:Hp; cbn [filter].
  - now rewrite IH.
  - destruct (q a) eqn:Hq; [|exact IH].
    rewrite (Himp a Hq) in Hp; discriminate.
Qed.

(** X6: on an increasing history whose lookback starts no later than the
    last training day, the charted history is the train window followed
    by the rows of the test window dated after the last training day: the
    two windows cover the lookback, and only rows dated [last_train_day]
    are in both. *)
Theorem windows_cover_lookback
    (hist : Series R) (v f : Z) (w : WindowSet) :
  increasing hist ->
  windows hist v f = Ok w ->
  first_day w <= last_train_day w ->
  all_days w
  = y_train w ++ filter (fun r => last_train_day w <? fst r) (y_test w).
Proof.
  intros Hinc Hw Hfirst.
  destruct (windows_restrictions hist v f w Hinc Hw) as (-> & -> & ->).
  unfold restrict_from at 2; rewrite filter_filter_implied.
  - now apply split_at_boundary.
  - intros r Hr; apply Z.ltb_lt in Hr; apply Z.leb_le; lia.
Qed.

Lemma windows_cover_lookback_witness :
  all_days (window_set four_days 3 30 738837)
  = y_train (window_set four_days 3 30 738837)
    ++ filter (fun r => last_train_day (window_set four_days 3 30 738837)
                        <? fst r)
              (y_test (window_set four_days 3 30 738837)).
Proof.
  apply (windows_cover_lookback four_days 3 30
           (window_set four_days 3 30 738837)).
  - unfold increasing; cbn; repeat constructor; lia.
  - reflexivity.
  - cbn; lia.
Defined.








(* ================================================================== *)
(** * Symbol search and the page script *)

Example split_exchange : split " - " "Equity - NMS" = ["Equity"; "NMS"]%string.
Proof. reflexivity. Qed.

Example split_without_separator :
  split " - " "Private Company" = ["Private Company"]%string.
Proof. reflexivity. Qed.

Example search_skips_private :
  search_symbols (Some [apple; private_firm; apple_frankfurt])
  = Ok (Table [("AAPL", "Apple Inc.", "NMS");
               ("APC.F", "Apple Inc.", "FRA")]%string).
Proof. reflexivity. Qed.

Lemma exchange_of_item (item : ListItem) :
  getitem (split " - " (quoteSpan item)) 1
  = if names_exchange item
    then Ok (nth 1 (split " - " (quoteSpan item)) EmptyString)
    else Err IndexError.
Proof.
  unfold names_exchange.
  destruct (Nat.leb_spec 2 (length (split " - " (quoteSpan item)))) as [H2|H2].
  - apply (getitem_nth _ 1 EmptyString); lia.
  - apply getitem_out_of_range; lia.
Qed.

(** The loop over the entries keeps the listed ones, in order. *)
Lemma item_loop_value (items : list ListItem)
    (symbols companies exchanges : list string) :
  for_each item_step (symbols, companies, exchanges) items
  = if forallb names_exchange (filter listed items)
    then Ok (symbols ++ map quoteSymbol (filter listed items),
             companies ++ map quoteCompanyName (filter listed items),
             exchanges
             ++ map (fun item => nth 1 (split " - " (quoteSpan item))
                                     EmptyString)
                    (filter listed items))
    else Err IndexError.
Proof.
  revert symbols companies exchanges.
  induction items as [|item items IH]; intros symbols companies exchanges.
  - cbn; now rewrite !app_nil_r.
  - assert (Hl : String.eqb (quoteSymbol item) "PRIVATE"
                 = negb (listed item))
      by (unfold listed; now rewrite negb_involutive).
    cbn [for_each filter]; unfold item_step at 1; rewrite Hl.
    destruct (listed item); cbn [negb].
    + rewrite exchange_of_item; cbn [forallb map].
      destruct (names_exchange item); cbn [bind andb]; [|reflexivity].
      rewrite IH, <- !app_assoc; reflexivity.
    + apply IH.
Qed.

Lemma combine_columns (items : list ListItem) :
  combine (combine (map quoteSymbol items) (map quoteCompanyName items))
          (map (fun item => nth 1 (split " - " (quoteSpan item)) EmptyString)
               items)
  = map row_of items.
Proof.
  induction items as [|item items IH]; cbn; [reflexivity|].
  now rewrite IH.
Qed.

(** X8: what a search returns, from the suggestion list found. If a
    listed entry's exchange text holds no " - " the search fails with
    [IndexError], even when other entries are well formed; otherwise the
    table holds one row per listed entry, in the order of the page, with
    the text after the first " - " as the exchange, and the message
    replaces a table without rows. *)
Theorem search_symbols_outcome (items : list ListItem) :
  search_symbols (Some items)
  = if forallb names_exchange (filter listed items)
    then match filter listed items with
         | [] => Ok (Message no_stocks)
         | _ :: _ => Ok (Table (map row_of (filter listed items)))
         end
    else Err IndexError.
Proof.
  unfold search_symbols; rewrite item_loop_value.
  destruct (forallb names_exchange (filter listed items)); [|reflexivity].
  cbn [bind app]; unfold data_frame.
  rewrite !length_map, !Nat.eqb_refl; cbn [andb bind].
  rewrite combine_columns, length_map.
  now destruct (filter listed items).
Qed.

(** X9: a table that is returned has at least one row and no row with
    the symbol PRIVATE; the search never fails on the lengths of its three
    columns. *)
Theorem search_symbols_table (page : option (list ListItem)) :
  search_symbols page <> Err ValueError
  /\ forall rows,
       search_symbols page = Ok (Table rows) ->
       rows <> []
       /\ Forall (fun row => fst (fst row) <> "PRIVATE"%string) rows.
Proof.
  destruct page as [items|]; [|split; [discriminate|discriminate]].
  rewrite search_symbols_outcome.
  assert (HF : Forall (fun row => fst (fst row) <> "PRIVATE"%string)
                      (map row_of (filter listed items))).
  { apply Forall_forall; intros row Hrow.
    apply in_map_iff in Hrow as (it & <- & Hit).
    apply filter_In in Hit as [_ Hlisted].
    unfold listed in Hlisted; cbn [row_of fst].
    intros Heq; rewrite Heq in Hlisted; discriminate. }
  destruct (forallb names_exchange (filter listed items));
    [|split; discriminate].
  destruct (filter listed items) as [|item L];
    [split; discriminate|].
  split; [discriminate|].
  intros rows [= <-]; split; [discriminate|exact HF].
Qed.

(** X10: on the forecast tab a ticker without any history is answered
    with the "No data found" box and [get_forecast] is not run; otherwise
    [get_forecast] runs on a non-empty history with 90 validation days and
    a horizon of 30, so an exception that ends the run is the failure of
    one of the three adapters on the windows. *)
Theorem forecast_tab_guards_empty_history (S : Services) (symbol : string) :
  symbol <> EmptyString ->
  (history S symbol = [] ->
   script S "Yes! Let's Forecast" symbol = Ok (ErrorBox no_data))
  /\ forall e,
       script S "Yes! Let's Forecast" symbol = Err e ->
       exists w,
         windows (history S symbol) 90 30 = Ok w
         /\ (auto_arima_model (models S)
               (y_train w) (y_test w) (forecast_days w) = Err e
             \/ lstm_model (models S)
                  (y_train w) (y_test w) (forecast_days w) = Err e
             \/ Orchestrator.MCMC_model (models S)
                  (y_train w) (y_test w) (forecast_days w) = Err e).
Proof.
  intros Hsym; unfold script.
  change (String.eqb "Yes! Let's Forecast" "Yes! Let's Forecast") with true.
  cbv iota.
  destruct (String.eqb_spec symbol EmptyString) as [Heq|_]; [contradiction|].
  cbn [negb]; split.
  - now intros ->.
  - intros e.
    destruct (history S symbol) as [|r hist] eqn:Hhist; [discriminate|].
    cbn [length Nat.eqb].
    destruct (windows_nonempty (r :: hist) 90 30 ltac:(discriminate))
      as [w Hw].
    unfold get_forecast, default_validation_days, default_days_to_forecast.
    rewrite Hw; cbn [bind]; intros Herr; exists w; split; [reflexivity|].
    revert Herr; unfold forecast_from.
    destruct (auto_arima_model (models S) _ _ _) as [[fa ea]|ea]; cbn [bind];
      [|intros [= ->]; now left].
    destruct (lstm_model (models S) _ _ _) as [[fl el]|el]; cbn [bind];
      [|intros [= ->]; right; now left].
    destruct (Orchestrator.MCMC_model (models S) _ _ _) as [[fm em]|em];
      cbn [bind]; [discriminate|intros [= ->]; right; now right].
Qed.

Lemma forecast_tab_guards_empty_history_witness :
  script offline "Yes! Let's Forecast" "ZZZZ" = Ok (ErrorBox no_data).
Proof.
  apply (proj1 (forecast_tab_guards_empty_history offline "ZZZZ"
                  ltac:(discriminate))).
  reflexivity.
Defined.

(* ================================================================== *)
(** * The sampler and the price path: further facts *)



Section PathFacts.
Context `{RandomSource}.

(** X12: whatever its argument and the draws of the generators, the
    sampler returns an array of exactly 1000 points. *)
Theorem sampler_returns_thousand_points (n : nat) (g : rng) :
  length (fst (MCMC n g)) = 1000%nat.
Proof. apply MCMC_length. Qed.

(** X13: without any point to predict [MH] divides by zero, before it
    looks at the training prices; with points to predict but no training
    price it fails on [y_train[-1]]. *)
Theorem MH_path_degenerate_inputs {A} (y_train : list R) (y_test : list A)
    (g : rng) :
  (y_test = [] -> MH_path y_train y_test g = Err ZeroDivisionError)
  /\ (y_test <> [] -> y_train = [] ->
      MH_path y_train y_test g = Err IndexError).
Proof.
  split.
  - now intros ->.
  - intros Htest ->; unfold MH_path, true_div.
    destruct (Z.eqb_spec (Z.of_nat (length y_test)) 0) as [Hz|_].
    + destruct y_test; [contradiction|discriminate Hz].
    + reflexivity.
Qed.

Lemma iterate_shift {A} (f : A -> A) (n : nat) (a : A) :
  iterate f n (f a) = f (iterate f n a).
Proof.
  induction n as [|n IH]; cbn [iterate]; [reflexivity|now rewrite IH].
Qed.

Lemma draw_pair (g : rng) : MCMC N g = (noise_array g, next_generator g).
Proof. exact (surjective_pairing (MCMC N g)). Qed.

(** What one pass appends, in terms of the array drawn and the state
    left by the call of the sampler. *)
Lemma MH_body_pass (delta_t : R) (stock_pred : list R) (i timestep : Z)
    (g : rng) (st' : MH_state) :
  MH_invariant (stock_pred, i, g) ->
  MH_body delta_t (stock_pred, i, g) timestep = Ok st' ->
  exists z,
    getitem (noise_array g) (timestep + 5) = Ok z
    /\ st' = (stock_pred
              ++ [(nth (if i =? 0 then 0 else 1) stock_pred 0
                   * growth delta_t z)%R],
              i + 1, next_generator g).
Proof.
  intros Hinv Hb.
  destruct (MH_body_appends _ delta_t stock_pred i timestep g st' Hinv Hb)
    as (z & Hz & Hst).
  exists z; split; [exact Hz|exact Hst].
Qed.

(** The passes of the loop from pass [i + 1] on: the prices they add, and
    the noise and the base price of each. *)
Lemma MH_loop_shape (delta_t : R) (n : nat) :
  forall (stock_pred : list R) (i : Z) (g : rng) (st' : MH_state),
    MH_invariant (stock_pred, i, g) ->
    for_each (MH_body delta_t) (stock_pred, i, g)
             (range (i + 1) (i + 1 + Z.of_nat n)) = Ok st' ->
    exists added,
      st' = (stock_pred ++ added, i + Z.of_nat n,
             iterate next_generator n g)
      /\ length added = n
      /\ forall k, (k < n)%nat ->
           exists z,
             getitem (noise_array (iterate next_generator k g))
                     (i + 1 + Z.of_nat k + 5) = Ok z
             /\ nth k added 0%R
                = (nth (if (i + Z.of_nat k =? 0)%Z then 0 else 1)%nat
                       (stock_pred ++ added) 0
                   * growth delta_t z)%R.
Proof.
  generalize noise_array next_generator MH_body_pass.
  intros noise next Hpass_body.
  induction n as [|n IH]; intros stock_pred i g st' Hinv Hloop.
  - rewrite range_empty in Hloop by lia; injection Hloop as <-.
    exists []; rewrite app_nil_r, Z.add_0_r.
    repeat split; intros k Hk; lia.
  - rewrite range_first in Hloop by lia; cbn [for_each] in Hloop.
    destruct (MH_body delta_t (stock_pred, i, g) (i + 1)) as [st1|e] eqn:Hb;
      [|discriminate].
    destruct (Hpass_body delta_t stock_pred i (i + 1) g st1 Hinv Hb)
      as (z & Hz & ->).
    set (price :=
           (nth (if (i =? 0)%Z then 0 else 1)%nat stock_pred 0
            * growth delta_t z)%R) in *.
    replace (i + 1 + Z.of_nat (S n)) with (i + 1 + 1 + Z.of_nat n)
      in Hloop by lia.
    destruct Hinv as [Hi Hlen].
    destruct (IH (stock_pred ++ [price]) (i + 1) (next g) st')
      as (added & -> & Hadded & Hpass); [|exact Hloop|].
    { cbn [MH_invariant]; rewrite length_app; cbn [length]; lia. }
    exists (price :: added).
    rewrite <- app_assoc, iterate_shift; cbn [app length iterate].
    split; [do 2 f_equal; lia|].
    split; [now rewrite Hadded|].
    intros [|k] Hk.
    + exists z; cbn [iterate nth]; change (Z.of_nat 0) with 0.
      rewrite !Z.add_0_r.
      split; [exact Hz|].
      unfold price; f_equal.
      rewrite app_nth1; [reflexivity|].
      destruct (Z.eqb_spec i 0); lia.
    + destruct (Hpass k ltac:(lia)) as (z' & Hz' & Hnth).
      exists z'; cbn [iterate]; rewrite <- iterate_shift.
      replace (i + 1 + Z.of_nat (S k) + 5) with (i + 1 + 1 + Z.of_nat k + 5)
        by lia.
      split; [exact Hz'|].
      cbn [nth]; rewrite Hnth, <- app_assoc; cbn [app].
      replace (i + Z.of_nat (S k)) with (i + 1 + Z.of_nat k) by lia.
      reflexivity.
Qed.

Lemma MH_path_shape {A} (y_train : list R) (y_test : list A) (g g' : rng)
    (path : list R) :
  MH_path y_train y_test g = Ok (path, g') ->
  hd_error path = Some (last y_train 0%R)
  /\ length path = length y_test
  /\ forall t, (1 <= t < length y_test)%nat ->
       exists z,
         noise_of_pass t g = Ok z
         /\ nth t path 0%R
            = (base_of_pass t path * growth (step_length y_test) z)%R.
Proof.
  unfold MH_path, true_div; intros Hpath.
  destruct (Z.eqb_spec (Z.of_nat (length y_test)) 0) as [Hz|Hz];
    [discriminate|].
  cbn [bind] in Hpath.
  destruct y_train as [|p0 y_train]; [rewrite getitem_nil in Hpath;
                                      discriminate|].
  rewrite (getitem_last (p0 :: y_train) 0%R) in Hpath by discriminate.
  cbn [bind] in Hpath.
  set (s0 := last (p0 :: y_train) 0%R) in *.
  destruct (for_each _ _ _) as [[[stock_pred i] g1]|e] eqn:Hloop;
    [|discriminate].
  cbn [bind] in Hpath; injection Hpath as -> ->.
  replace (range 1 (Z.of_nat (length y_test)))
    with (range (0 + 1) (0 + 1 + Z.of_nat (length y_test - 1)))
    in Hloop by (f_equal; lia).
  apply MH_loop_shape in Hloop as (added & Hst & Hadded & Hpass);
    [|apply MH_invariant_start].
  apply (f_equal (fun st => fst (fst st))) in Hst; cbn [fst] in Hst.
  subst path.
  cbn [app hd_error length].
  split; [reflexivity|].
  split; [lia|].
  intros t Ht.
  destruct (Hpass (t - 1)%nat ltac:(lia)) as (z & Hz' & Hnth).
  exists z; unfold noise_of_pass, generator_after, base_of_pass, step_length.
  replace (Z.of_nat t + 5) with (0 + 1 + Z.of_nat (t - 1) + 5) by lia.
  split; [exact Hz'|].
  destruct t as [|t]; [lia|].
  replace (S t - 1)%nat with t in Hnth by lia.
  cbn [nth]; rewrite Hnth; f_equal.
  cbn [app]; destruct t as [|t]; reflexivity.
Qed.

End PathFacts.

Lemma growth_positive (delta_t z : R) : (0 < growth delta_t z)%R.
Proof. apply exp_pos. Qed.

(** X14: with training prices and 1 to 995 points to predict, the path
    has one price per point, starts at the last training price, and stays
    positive when that price is positive. *)
Theorem MH_path_starts_at_last_price
    (RS : RandomSource) {A} (y_train : list R) (y_test : list A) (g : rng) :
  y_train <> [] ->
  (1 <= length y_test <= 995)%nat ->
  exists path g',
    MH_path y_train y_test g = Ok (path, g')
    /\ hd_error path = Some (last y_train 0%R)
    /\ length path = length y_test
    /\ ((0 < last y_train 0)%R -> Forall (fun p => (0 < p)%R) path).
Proof.
  intros Htrain Hlen.
  destruct (MH_path_short y_train y_test g Htrain Hlen)
    as (path & g' & Hpath & _).
  exists path, g'; split; [exact Hpath|].
  destruct (MH_path_shape y_train y_test g g' path Hpath)
    as (Hhd & Hl & Hpass).
  split; [exact Hhd|]; split; [exact Hl|].
  intros Hpos.
  assert (H0 : (0 < nth 0 path 0)%R).
  { destruct path as [|p0 path]; [discriminate|].
    injection Hhd as ->; exact Hpos. }
  assert (H1 : (1 < length y_test)%nat -> (0 < nth 1 path 0)%R).
  { intros H1; destruct (Hpass 1%nat ltac:(lia)) as (z & _ & ->).
    apply Rmult_lt_0_compat; [exact H0|apply growth_positive]. }
  apply Forall_nth; intros t d Ht.
  rewrite (nth_indep path d 0%R Ht), Hl in *.
  destruct t as [|t]; [exact H0|].
  destruct (Hpass (S t) ltac:(lia)) as (z & _ & ->).
  apply Rmult_lt_0_compat; [|apply growth_positive].
  unfold base_of_pass; destruct t as [|t]; [exact H0|apply H1; lia].
Qed.

Lemma MH_path_starts_at_last_price_witness :
  exists path g',
    @MH_path still_source cell [90; 100]%R [None; None; None] tt
    = Ok (path, g')
    /\ hd_error path = Some (last [90; 100]%R 0%R)
    /\ length path = length [@None R; None; None]
    /\ ((0 < last [90; 100]%R 0)%R -> Forall (fun p => (0 < p)%R) path).
Proof.
  apply (MH_path_starts_at_last_price still_source
           [90; 100]%R [None; None; None] tt).
  - discriminate.
  - cbn [length]; lia.
Defined.

(** X15: the shape of the whole path, for any generator. The price of
    step 1 is the last training price times the factor of the noise read
    in pass 1; the price of every later step [t] is the price of step 1,
    not the price of step [t - 1], times the factor of the noise read in
    pass [t]. *)
Theorem MH_path_steps_restart_from_step_one
    (RS : RandomSource) {A} (y_train : list R) (y_test : list A) (g : rng) :
  y_train <> [] ->
  (1 <= length y_test <= 995)%nat ->
  exists path g',
    MH_path y_train y_test g = Ok (path, g')
    /\ forall t, (1 <= t < length y_test)%nat ->
         exists z,
           noise_of_pass t g = Ok z
           /\ nth t path 0%R
              = (nth (if (t =? 1)%nat then 0 else 1)%nat path 0
                 * growth (IZR 1 / IZR (Z.of_nat (length y_test))) z)%R.
Proof.
  intros Htrain Hlen.
  destruct (MH_path_short y_train y_test g Htrain Hlen)
    as (path & g' & Hpath & _).
  exists path, g'; split; [exact Hpath|].
  now destruct (MH_path_shape y_train y_test g g' path Hpath)
    as (_ & _ & Hpass).
Qed.

Lemma MH_path_steps_restart_from_step_one_witness :
  exists path g',
    @MH_path still_source cell [100%R] [None; None; None; None] tt
    = Ok (path, g')
    /\ forall t, (1 <= t < length [@None R; None; None; None])%nat ->
         exists z,
           @noise_of_pass still_source t tt = Ok z
           /\ nth t path 0%R
              = (nth (if (t =? 1)%nat then 0 else 1)%nat path 0
                 * growth
                     (IZR 1
                      / IZR (Z.of_nat (length [@None R; None; None; None])))
                     z)%R.
Proof.
  apply (MH_path_steps_restart_from_step_one still_source
           [100%R] [None; None; None; None] tt).
  - discriminate.
  - cbn [length]; lia.
Defined.

Lemma all_finite_prices (prices : list R) :
  all_finite (map Some prices) = Some prices.
Proof.
  induction prices as [|p prices IH]; cbn; [reflexivity|now rewrite IH].
Qed.

Lemma matching_fraction_bounds (actual predicted : list R) :
  (2 <= length actual)%nat ->
  (0 <= INR (matching_count actual predicted) / INR (length actual - 1)
   <= 1)%R.
Proof.
  intros Hn.
  assert (Htotal : (0 < INR (length actual - 1))%R) by (apply lt_0_INR; lia).
  pose proof (le_INR _ _ (matching_count_le actual predicted)) as Hle.
  pose proof (pos_INR (matching_count actual predicted)) as Hpos.
  split.
  - apply Rmult_le_pos; [exact Hpos|].
    left; now apply Rinv_0_lt_compat.
  - apply (Rmult_le_reg_r (INR (length actual - 1))); [exact Htotal|].
    unfold Rdiv; rewrite Rmult_assoc, Rinv_l by lra; lra.
Qed.

Lemma set_loc_other (fc_df : Series cell) (day : Z) (v : R) :
  Forall (fun r => fst r <> day) fc_df -> set_loc fc_df day v = fc_df.
Proof.
  induction 1 as [|r fc_df Hr _ IH]; cbn [set_loc map]; [reflexivity|].
  fold (set_loc fc_df day v); rewrite IH; unfold cell in *.
  destruct (Z.eqb_spec (fst r) day); [contradiction|reflexivity].
Qed.

Lemma set_loc_app (a b : Series cell) (day : Z) (v : R) :
  set_loc (a ++ b) day v = set_loc a day v ++ set_loc b day v.
Proof. unfold set_loc; apply map_app. Qed.

Lemma combine_snoc {A B} (l : list A) (l' : list B) (a : A) (b : B) :
  length l = length l' ->
  combine (l ++ [a]) (l' ++ [b]) = combine l l' ++ [(a, b)].
Proof.
  revert l'; induction l as [|x l IH]; intros [|y l'] Hlen;
    try discriminate; [reflexivity|].
  cbn; f_equal; apply IH; now injection Hlen.
Qed.

(** The loop that fills the frame, day by day, on days without duplicate:
    after the days [filled] the frame holds their forecasts, the other
    days are still empty. *)
Lemma fill_loop (days filled : list Z) (vals filled_vals : list R) :
  NoDup (filled ++ days) ->
  length filled = length filled_vals ->
  length days = length vals ->
  for_each (fill_step (filled_vals ++ vals))
           (combine filled (map Some filled_vals)
            ++ map (fun d => (d, None)) days,
            Z.of_nat (length filled_vals))
           days
  = Ok (combine (filled ++ days) (map Some (filled_vals ++ vals)),
        Z.of_nat (length (filled_vals ++ vals))).
Proof.
  revert filled vals filled_vals.
  induction days as [|day days IH]; intros filled vals filled_vals Hnd Hf Hd.
  - destruct vals; [|discriminate]; cbn; now rewrite !app_nil_r.
  - destruct vals as [|v vals]; [discriminate|].
    cbn [for_each]; unfold fill_step at 1.
    rewrite (getitem_nth _ _ 0%R)
      by (rewrite length_app; cbn [length]; lia).
    rewrite app_nth2, Nat.sub_diag by lia; cbn [nth bind].
    assert (Hfresh : ~ In day filled /\ ~ In day days).
    { apply NoDup_remove_2 in Hnd; rewrite in_app_iff in Hnd; tauto. }
    rewrite set_loc_app, set_loc_other; cbn [map].
    + unfold set_loc at 1; cbn [map fst]; rewrite Z.eqb_refl.
      fold (set_loc (map (fun d => (d, @None R)) days) day v).
      rewrite set_loc_other.
      * assert (Hnd' : NoDup ((filled ++ [day]) ++ days))
          by (now rewrite <- app_assoc).
        assert (Hf' : length (filled ++ [day]) = length (filled_vals ++ [v]))
          by (rewrite !length_app; cbn [length]; lia).
        assert (Hd' : length days = length vals) by (now injection Hd).
        pose proof (IH (filled ++ [day]) vals (filled_vals ++ [v])
                      Hnd' Hf' Hd') as HIH.
        rewrite <- !app_assoc in HIH; cbn [app] in HIH.
        rewrite (map_app Some filled_vals [v]) in HIH; cbn [map] in HIH.
        rewrite combine_snoc in HIH by (now rewrite length_map).
        rewrite <- app_assoc in HIH; cbn [app] in HIH.
        rewrite (length_app filled_vals [v]) in HIH; cbn [length] in HIH.
        replace (Z.of_nat (length filled_vals + 1))
          with (Z.of_nat (length filled_vals) + 1) in HIH by lia.
        exact HIH.
      * apply Forall_forall; intros r Hr.
        apply in_map_iff in Hr as (d & <- & Hin); cbn [fst].
        intros ->; tauto.
    + apply Forall_forall; intros [d c] Hr.
      apply in_combine_l in Hr; cbn [fst]; intros ->; tauto.
Qed.

Lemma last_of_app {A} (l l' : list A) (d : A) :
  l' <> [] -> last (l ++ l') d = last l' d.
Proof.
  intros Hne; destruct (exists_last Hne) as (l0 & a & ->).
  now rewrite app_assoc, !last_last.
Qed.

Section AdapterFacts.
Context `{RandomSource} `{MetricsLibrary}.

(** The validation replay on 2 to 995 observed prices. *)
Lemma MH_validation_ok (y_train y_test : list R) (g : rng) :
  metrics_answer ->
  y_train <> [] ->
  (2 <= length y_test <= 995)%nat ->
  exists errs path g',
    MH y_train (map Some y_test) false g = Ok (ErrorsDict errs, path, g')
    /\ (0 <= DA errs <= 1)%R.
Proof.
  intros Hmetrics Htrain Hlen; unfold MH.
  destruct (@MH_path_short _ cell y_train (map Some y_test) g Htrain)
    as (path & g' & -> & Hl); [rewrite length_map; lia|].
  rewrite length_map in Hl.
  cbn [bind negb]; rewrite all_finite_prices.
  destruct (Hmetrics y_test path) as [[m ->] [s ->]];
    [now symmetry|destruct y_test; [cbn in Hlen; lia|discriminate]|].
  cbn [bind].
  rewrite directional_accuracy_run by (lia || now symmetry).
  cbn [bind]; do 3 eexists; split; [reflexivity|].
  cbn [DA]; apply matching_fraction_bounds; lia.
Qed.

(** X16: a validation window of a single day makes the adapter fail with
    [ZeroDivisionError]: the path has one price and the directional
    accuracy divides by [len - 1 = 0]. *)
Theorem one_validation_day_aborts
    (y_train y_test : Series R) (forecast_days : list Timestamp) (g : rng) :
  metrics_answer ->
  y_train <> [] ->
  length y_test = 1%nat ->
  Simulation.MCMC_model y_train y_test forecast_days g
  = Err ZeroDivisionError.
Proof.
  intros Hmetrics Htrain Hlen.
  destruct y_test as [|[t p] [|r y_test]]; try discriminate.
  assert (Hvals : values y_train <> [])
    by (unfold values; destruct y_train; [contradiction|discriminate]).
  unfold Simulation.MCMC_model, MH.
  destruct (@MH_path_short _ cell (values y_train)
              (map Some (values [(t, p)])) g Hvals)
    as (path & g' & -> & Hl); [cbn; lia|].
  cbn [bind negb values map snd all_finite].
  cbn [values map length] in Hl.
  destruct (Hmetrics [p] path) as [[m ->] [s ->]];
    [now symmetry|discriminate|].
  cbn [bind].
  rewrite directional_accuracy_one_point by (reflexivity || exact Hl).
  reflexivity.
Qed.

Lemma values_empty_frame (days : list Z) :
  values (map (fun d => (d, @None R)) days) = map (fun _ => None) days.
Proof. unfold values; rewrite map_map; reflexivity. Qed.

Lemma index_empty_frame (days : list Z) :
  index (map (fun d => (d, @None R)) days) = days.
Proof. unfold index; rewrite map_map; apply map_id. Qed.

(** X17: without any forecast day the adapter fails with
    [ZeroDivisionError] in the forecast rollout, after a validation replay
    that succeeded. *)
Theorem no_forecast_day_aborts
    (y_train y_test : Series R) (g : rng) :
  metrics_answer ->
  y_train <> [] ->
  (2 <= length y_test <= 995)%nat ->
  Simulation.MCMC_model y_train y_test [] g = Err ZeroDivisionError.
Proof.
  intros Hmetrics Htrain Hlen.
  assert (Hvals : values y_train <> [])
    by (unfold values; destruct y_train; [contradiction|discriminate]).
  unfold Simulation.MCMC_model.
  destruct (MH_validation_ok (values y_train) (values y_test) g
              Hmetrics Hvals)
    as (errs & path & g' & -> & _);
    [unfold values; rewrite length_map; lia|].
  reflexivity.
Qed.

(** X18: with training prices, 2 to 995 validation days and 1 to 995
    forecast days without duplicate, the adapter returns a frame on
    exactly the forecast days with a price in every cell, the first of
    them being the last validation price, and validation errors whose
    directional accuracy is within [0, 1]. *)
Theorem MCMC_model_frame
    (y_train y_test : Series R) (forecast_days : list Timestamp) (g : rng) :
  metrics_answer ->
  y_train <> [] ->
  (2 <= length y_test <= 995)%nat ->
  (1 <= length forecast_days <= 995)%nat ->
  NoDup forecast_days ->
  exists prices errs g',
    Simulation.MCMC_model y_train y_test forecast_days g
    = Ok (combine forecast_days (map Some prices), ErrorsDict errs, g')
    /\ length prices = length forecast_days
    /\ hd_error prices = Some (last (values y_test) 0%R)
    /\ (0 <= DA errs <= 1)%R.
Proof.
  intros Hmetrics Htrain Hlen Hdays Hnd.
  assert (Hvals : values y_train <> [])
    by (unfold values; destruct y_train; [contradiction|discriminate]).
  assert (Htest : values y_test <> [])
    by (unfold values; destruct y_test; [cbn in Hlen; lia|discriminate]).
  unfold Simulation.MCMC_model.
  destruct (MH_validation_ok (values y_train) (values y_test) g
              Hmetrics Hvals)
    as (errs & path & g1 & -> & Hda);
    [unfold values; rewrite length_map; lia|].
  cbn [bind]; unfold MH at 1.
  rewrite values_empty_frame, index_empty_frame.
  destruct (@MH_path_short _ cell (values y_train ++ values y_test)
              (map (fun _ => @None R) forecast_days) g1)
    as (prices & g2 & Hpath & Hl);
    [destruct (values y_train); [contradiction|discriminate]
    |rewrite length_map; lia|].
  rewrite length_map in Hl.
  destruct (MH_path_shape _ _ _ _ _ Hpath) as (Hhd & _ & _).
  rewrite Hpath; cbn [bind negb].
  pose proof (fill_loop forecast_days [] prices [] Hnd eq_refl
                (eq_sym Hl)) as Hfill.
  cbn [app combine map length Z.of_nat] in Hfill.
  exists prices, errs, g2.
  split; [|split; [exact Hl|split; [|exact Hda]]].
  - destruct (for_each (fill_step prices) _ forecast_days) as [[fc i]|e];
      [injection Hfill as -> _; reflexivity|discriminate Hfill].
  - rewrite Hhd, last_of_app by exact Htest; reflexivity.
Qed.

End AdapterFacts.

Lemma one_validation_day_aborts_witness :
  @Simulation.MCMC_model still_source zero_metrics
     four_days [(738838, 104%R)] [738839; 738840] tt
  = Err ZeroDivisionError.
Proof.
  apply (@one_validation_day_aborts still_source zero_metrics
           four_days [(738838, 104%R)] [738839; 738840] tt).
  - intros actual predicted _ _; split; exists 0%R; reflexivity.
  - discriminate.
  - reflexivity.
Defined.

Lemma no_forecast_day_aborts_witness :
  @Simulation.MCMC_model still_source zero_metrics
     five_days four_days [] tt
  = Err ZeroDivisionError.
Proof.
  apply (@no_forecast_day_aborts still_source zero_metrics
           five_days four_days tt).
  - intros actual predicted _ _; split; exists 0%R; reflexivity.
  - discriminate.
  - cbn [length four_days]; lia.
Defined.

Lemma MCMC_model_frame_witness :
  exists prices errs g',
    @Simulation.MCMC_model still_source zero_metrics
       five_days four_days [738838; 738839] tt
    = Ok (combine [738838; 738839] (map Some prices), ErrorsDict errs, g')
    /\ length prices = length [738838; 738839]
    /\ hd_error prices = Some (last (values four_days) 0%R)
    /\ (0 <= DA errs <= 1)%R.
Proof.
  apply (@MCMC_model_frame still_source zero_metrics
           five_days four_days [738838; 738839] tt).
  - intros actual predicted _ _; split; exists 0%R; reflexivity.
  - discriminate.
  - cbn [length four_days]; lia.
  - cbn [length]; lia.
  - repeat constructor; cbn; intuition discriminate.
Defined.

(* ================================================================== *)
(** * The training set of the sequence model: shape and range *)

Lemma fit_nonempty (X : list R) :
  X <> [] -> exists s, fit X = Ok s.
Proof. destruct X; [contradiction|intros _; eexists; reflexivity]. Qed.

Lemma length_window (l : list R) (i : nat) :
  (lookback <= i <= length l)%nat ->
  length (islice (i - lookback) i l) = lookback.
Proof.
  intros Hi; unfold islice; rewrite length_skipn, length_firstn; lia.
Qed.

Lemma nth_window (l : list R) (i j : nat) :
  (lookback <= i <= length l)%nat -> (j < lookback)%nat ->
  nth j (islice (i - lookback) i l) 0%R = nth (i - lookback + j) l 0%R.
Proof.
  intros Hi Hj; unfold islice; rewrite nth_skipn, nth_firstn.
  destruct (Nat.ltb_spec (i - lookback + j) i); [reflexivity|lia].
Qed.

Lemma make_windows_lengths (l : list R) :
  length (fst (make_windows l)) = (length l - lookback)%nat
  /\ length (snd (make_windows l)) = (length l - lookback)%nat
  /\ Forall (fun win => length win = lookback) (fst (make_windows l)).
Proof.
  unfold make_windows; cbn [fst snd]; rewrite !length_map, length_seq.
  repeat split.
  apply Forall_forall; intros win Hwin.
  apply in_map_iff in Hwin as (i & <- & Hi); apply in_seq in Hi.
  apply length_window; lia.
Qed.

Lemma training_set_unfold (y_train y_test : Series R) (s : MinMaxScaler) :
  fit (values y_train ++ values y_test) = Ok s ->
  lstm_training_set y_train y_test
  = match fst (make_windows (map (transform s) (values y_train))) with
    | [] => Err IndexError
    | _ :: _ =>
        Ok {| train_X :=
                fst (make_windows (map (transform s) (values y_train)));
              train_y :=
                snd (make_windows (map (transform s) (values y_train))) |}
    end.
Proof.
  intros Hfit; unfold lstm_training_set; rewrite Hfit; cbn [bind].
  now destruct (make_windows (map (transform s) (values y_train)))
    as [[|win X] y].
Qed.

Lemma fit_of_data (y_train y_test : Series R) :
  y_train <> [] \/ y_test <> [] ->
  exists s, fit (values y_train ++ values y_test) = Ok s.
Proof.
  intros Hdata; apply fit_nonempty; unfold values.
  destruct Hdata as [Hd|Hd]; [destruct y_train|destruct y_test];
    try contradiction; [discriminate|].
  intros Hnil; apply app_eq_nil in Hnil as [_ Hnil]; discriminate.
Qed.

(** With at least 61 training rows the training set exists. *)
Lemma training_set_of_long_series (y_train y_test : Series R) :
  (61 <= length y_train)%nat ->
  exists ts,
    lstm_training_set y_train y_test = Ok ts
    /\ length (train_X ts) = (length y_train - 60)%nat
    /\ length (train_y ts) = (length y_train - 60)%nat
    /\ Forall (fun win => length win = 60%nat) (train_X ts).
Proof.
  intros Hlen.
  destruct (fit_of_data y_train y_test) as [s Hs];
    [left; destruct y_train; [cbn in Hlen; lia|discriminate]|].
  rewrite (training_set_unfold y_train y_test s Hs).
  destruct (make_windows_lengths (map (transform s) (values y_train)))
    as (HX & Hy & Hwin).
  unfold values in HX, Hy; rewrite !length_map in HX, Hy.
  unfold lookback in *.
  destruct (fst (make_windows _)) as [|win X] eqn:HXs;
    [cbn [length] in HX; lia|].
  eexists; split; [reflexivity|]; cbn [train_X train_y].
  repeat split; assumption.
Qed.









Lemma length_tl {A} (w : list A) : length (tl w) = (length w - 1)%nat.
Proof. destruct w; cbn; lia. Qed.

Lemma nth_tl {A} (w : list A) (j : nat) (d : A) :
  nth j (tl w) d = nth (S j) w d.
Proof. destruct w; [now destruct j|reflexivity]. Qed.

Lemma lookback_value : lookback = 60%nat.
Proof. reflexivity. Qed.

Lemma window_slide (l : list R) (i : nat) :
  (lookback <= i < length l)%nat ->
  islice (S i - lookback) (S i) l
  = tl (islice (i - lookback) i l) ++ [nth i l 0%R].
Proof.
  intros Hi; pose proof lookback_value as Hlb.
  apply (nth_ext _ _ 0%R 0%R).
  - rewrite length_app, length_tl, !length_window by lia.
    cbn [length]; lia.
  - intros j Hj; rewrite length_window in Hj by lia.
    rewrite nth_window by lia.
    destruct (Nat.eq_dec j (lookback - 1)) as [->|Hne].
    + rewrite app_nth2 by (rewrite length_tl, length_window; lia).
      rewrite length_tl, length_window, Nat.sub_diag by lia.
      cbn [nth]; f_equal; lia.
    + rewrite app_nth1 by (rewrite length_tl, length_window; lia).
      rewrite nth_tl, nth_window by lia.
      f_equal; lia.
Qed.

(** X21: the training examples slide over the scaled training prices one
    row at a time: each window, without its first value and followed by
    its target, is the next window. *)
Theorem training_windows_slide
    (y_train y_test : Series R) (ts : TrainingSet) (k : nat) :
  lstm_training_set y_train y_test = Ok ts ->
  (S k < length (train_X ts))%nat ->
  nth (S k) (train_X ts) []
  = tl (nth k (train_X ts) []) ++ [nth k (train_y ts) 0%R].
Proof.
  intros Hts Hk; pose proof lookback_value as Hlb.
  destruct (fit (values y_train ++ values y_test)) as [s|e] eqn:Hfit;
    [|unfold lstm_training_set in Hts; rewrite Hfit in Hts; discriminate].
  rewrite (training_set_unfold y_train y_test s Hfit) in Hts.
  set (l := map (transform s) (values y_train)) in *.
  destruct (make_windows_lengths l) as (HlenX & _ & _).
  assert (Hts' : train_X ts = fst (make_windows l)
                 /\ train_y ts = snd (make_windows l)).
  { destruct (fst (make_windows l)) as [|win X]; [discriminate|].
    injection Hts as <-; split; reflexivity. }
  destruct Hts' as [HX Hy]; rewrite HX in Hk |- *; rewrite Hy.
  rewrite HlenX in Hk; unfold make_windows; cbn [fst snd].
  set (win := fun i => islice (i - lookback) i l).
  set (target := fun i => nth i l 0%R).
  assert (Hwin : forall j, (j < length l - lookback)%nat ->
                   nth j (map win (seq lookback (length l - lookback))) []
                   = win (lookback + j)%nat).
  { intros j Hj.
    rewrite (nth_indep _ [] (win 0%nat))
      by (rewrite length_map, length_seq; lia).
    now rewrite (map_nth win), seq_nth. }
  assert (Htarget : nth k (map target (seq lookback (length l - lookback)))
                        0%R
                    = target (lookback + k)%nat).
  { rewrite (nth_indep _ 0%R (target 0%nat))
      by (rewrite length_map, length_seq; lia).
    rewrite (map_nth target), seq_nth by lia; reflexivity. }
  rewrite !Hwin, Htarget by lia; unfold win, target.
  replace (lookback + S k)%nat with (S (lookback + k)) by lia.
  apply window_slide; lia.
Qed.

Lemma training_windows_slide_witness :
  exists ts,
    lstm_training_set (flat_then_up ++ [(62, 2%R)]) [(63, 3%R)] = Ok ts
    /\ nth 1 (train_X ts) []
       = tl (nth 0 (train_X ts) []) ++ [nth 0 (train_y ts) 0%R].
Proof.
  destruct (training_set_of_long_series
              (flat_then_up ++ [(62, 2%R)]) [(63, 3%R)])
    as (ts & Hts & HX & _); [cbn; lia|].
  exists ts; split; [exact Hts|].
  apply (training_windows_slide
           (flat_then_up ++ [(62, 2%R)]) [(63, 3%R)] ts 0 Hts).
  rewrite HX; cbn; lia.
Defined.
